(** * Clickable-Detail: click routing of [ClickableDetail]

    A shallow embedding of the click-routing code of the repository:
    - the component [ClickableDetail]: [getChildrenRecursive], the effect
      that builds [newClickHandlers] and sets [content], and the
      dispatcher [clickHandler.current];
    - the hit tests [Polygon.doesContainPoint], [Line.doesContainPoint],
      [Circle.doesContainPoint], [Ellipse.doesContainPoint] and
      [Toggle.doesContainPoint];
    - [Text.computeDimensions];
    - [toggle] and [setEnabled] of [useToggleDelegates], and the arguments
      that [execScript] gives to [osascript].

    JavaScript numbers are IEEE-754 binary64 values.  They are modelled by
    the Standard Library's [spec_float] at precision 53 and maximal exponent
    1024, whose operations are the round-to-nearest-even ones: infinities,
    the signed zeros and NaN behave as they do in the source.

    A tree of children holds what JSX puts there: elements, strings,
    numbers, booleans, [null], [undefined] and arrays of these.  A
    callback returns or throws a value, whichever value.  The functions of
    the libraries that the effect calls to render its content,
    [renderToString] and [encodeURI], are parameters of the effect. *)

From Stdlib Require Import ZArith List String Ascii Bool Lia.
From Stdlib Require Import Floats.SpecFloat.
Import ListNotations.

Set Implicit Arguments.

(* ===================================================================== *)
(** * JavaScript numbers *)
(* ===================================================================== *)

Module JS.

Definition number := spec_float.

Definition prec : Z := 53.
Definition emax : Z := 1024.

Definition NaN : number := S754_nan.
Definition Infinity : number := S754_infinity false.

Definition add : number -> number -> number := SFadd prec emax.
Definition sub : number -> number -> number := SFsub prec emax.
Definition mul : number -> number -> number := SFmul prec emax.
Definition div : number -> number -> number := SFdiv prec emax.

(** [a < b], [a > b], [a <= b], [a >= b]: false as soon as one side is
    NaN. *)
Definition lt (a b : number) : bool := SFltb a b.
Definition gt (a b : number) : bool := SFltb b a.
Definition le (a b : number) : bool := SFleb a b.
Definition ge (a b : number) : bool := SFleb b a.

(** [a == b] on numbers: false as soon as one side is NaN, true on the
    two zeros. *)
Definition eqb (a b : number) : bool := SFeqb a b.

(** The number denoted by an integer literal or an integer count. *)
Definition of_Z (z : Z) : number := binary_normalize prec emax z 0 false.
Definition of_nat (n : nat) : number := of_Z (Z.of_nat n).

(** The literal [1.1]: the double nearest to 11/10, which the correctly
    rounded quotient of the two exact doubles 11 and 10 is. *)
Definition lit_1_1 : number := Eval vm_compute in div (of_Z 11) (of_Z 10).

(** [ToBoolean] on a number: [0], [-0] and [NaN] are falsy. *)
Definition truthy (a : number) : bool :=
  match a with
  | S754_zero _ | S754_nan => false
  | _ => true
  end.

(** A property that holds a number or is [undefined]. *)
Definition value := option number.

(** [ToNumber]: [undefined] becomes NaN. *)
Definition toNumber (v : value) : number :=
  match v with
  | Some a => a
  | None => NaN
  end.

(** [v == undefined]. *)
Definition isUndefined (v : value) : bool :=
  match v with
  | Some _ => false
  | None => true
  end.

(** [ToBoolean] on a property. *)
Definition truthyValue (v : value) : bool :=
  match v with
  | Some a => truthy a
  | None => false
  end.

(** [v || d] for a numeric default [d]. *)
Definition orDefault (v : value) (d : number) : number :=
  match v with
  | Some a => if truthy a then a else d
  | None => d
  end.

(** [isFinite(a) && !isNaN(a)]. *)
Definition isFinite (a : number) : bool :=
  match a with
  | S754_zero _ | S754_finite _ _ _ => true
  | _ => false
  end.

(** A number that is NaN or an infinity. *)
Definition nonFinite (a : number) : Prop := isFinite a = false.

Definition isNaN (a : number) : bool :=
  match a with
  | S754_nan => true
  | _ => false
  end.

Definition isNegativeZero (a : number) : bool :=
  match a with
  | S754_zero true => true
  | _ => false
  end.

Definition isPositiveZero (a : number) : bool :=
  match a with
  | S754_zero false => true
  | _ => false
  end.

Module Math.

Definition abs : number -> number := SFabs.
Definition sqrt : number -> number := SFsqrt prec emax.

(** [Math.pow(a, 2)].  The language fixes the result for NaN (NaN), the
    infinities (+Infinity) and the zeros (+0); for the other bases it is
    the square, taken here correctly rounded. *)
Definition pow2 (a : number) : number := mul a a.

(** [Math.min(...l)]: NaN as soon as one argument is NaN, +Infinity for
    no argument, and [-0] below [+0]. *)
Definition min (l : list number) : number :=
  if existsb isNaN l then NaN
  else fold_left
         (fun lowest a =>
            if lt a lowest || (isNegativeZero a && isPositiveZero lowest)
            then a else lowest)
         l Infinity.

(** [Math.max(...l)]: NaN as soon as one argument is NaN, -Infinity for
    no argument, and [+0] above [-0]. *)
Definition max (l : list number) : number :=
  if existsb isNaN l then NaN
  else fold_left
         (fun highest a =>
            if gt a highest || (isPositiveZero a && isNegativeZero highest)
            then a else highest)
         l (S754_infinity true).

End Math.

(** ** Strings: [split] and [parseInt] *)

(** A string is a sequence of code units; the code units of this model
    are the 256 values of [ascii]. *)

(** [s.split(sep)] for a separator of one code unit: never empty. *)
Fixpoint split (sep : ascii) (s : string) : list string :=
  match s with
  | EmptyString => [EmptyString]
  | String c r =>
      if Ascii.eqb c sep then EmptyString :: split sep r
      else match split sep r with
           | h :: t => String c h :: t
           | [] => [String c EmptyString]
           end
  end.

(** [l.join(sep)]. *)
Fixpoint join (sep : string) (l : list string) : string :=
  match l with
  | [] => EmptyString
  | [s] => s
  | s :: r => s ++ sep ++ join sep r
  end.

(** White space skipped by [parseInt]: TAB, LF, VT, FF, CR, SP, NBSP. *)
Definition isWhiteSpace (c : ascii) : bool :=
  let n := nat_of_ascii c in
  ((9 <=? n) && (n <=? 13) || (n =? 32) || (n =? 160))%nat.

Fixpoint trimStart (s : string) : string :=
  match s with
  | String c r => if isWhiteSpace c then trimStart r else s
  | EmptyString => s
  end.

(** The value of a code unit as a digit of the given radix. *)
Definition digitValue (radix : Z) (c : ascii) : option Z :=
  (let n := Z.of_nat (nat_of_ascii c) in
   let d := if (48 <=? n) && (n <=? 57) then Some (n - 48)
            else if (97 <=? n) && (n <=? 122) then Some (n - 87)
            else if (65 <=? n) && (n <=? 90) then Some (n - 55)
            else None in
   match d with
   | Some v => if v <? radix then Some v else None
   | None => None
   end)%Z.

(** The integer written by the longest prefix of digits, [None] when that
    prefix is empty. *)
Fixpoint digits (radix : Z) (s : string) (acc : option Z) : option Z :=
  match s with
  | String c r =>
      match digitValue radix c with
      | Some v =>
          digits radix r
            (Some (match acc with Some a => a * radix + v | None => v end)%Z)
      | None => acc
      end
  | EmptyString => acc
  end.

Definition stripSign (s : string) : bool * string :=
  match s with
  | String "-"%char r => (true, r)
  | String "+"%char r => (false, r)
  | _ => (false, s)
  end.

Definition stripPrefix (s : string) : Z * string :=
  match s with
  | String "0"%char (String "x"%char r) => (16%Z, r)
  | String "0"%char (String "X"%char r) => (16%Z, r)
  | _ => (10%Z, s)
  end.

(** [parseInt(s)] with no radix argument.  An integer beyond 2^53 is
    rounded to the nearest double. *)
Definition parseInt (s : string) : number :=
  let '(sign, s1) := stripSign (trimStart s) in
  let '(radix, s2) := stripPrefix s1 in
  match digits radix s2 None with
  | None => NaN
  | Some Z0 => S754_zero sign
  | Some mathInt => of_Z (if sign then - mathInt else mathInt)
  end.

(** [parseInt(a[i])] for an array of strings: a missing element is
    [undefined], which [parseInt] reads as the string "undefined". *)
Definition parseIntAt (a : list string) (i : nat) : number :=
  match nth_error a i with
  | Some s => parseInt s
  | None => parseInt "undefined"
  end.

End JS.


(* ===================================================================== *)
(** * Effects: callbacks, exceptions and the console *)
(* ===================================================================== *)

(** A value that is thrown or logged.  Of what it catches the routing
    code reads the property [message] and nothing else: [null] and
    [undefined] have no property to read, a boolean, a number and a string
    have no property [message], and an object is given by what its
    property [message] holds ([undefined] when it has none). *)
Inductive jsvalue :=
| JNull
| JUndefined
| JBoolean (b : bool)
| JNumber (n : JS.number)
| JString (s : string)
| JObject (message : jsvalue).

(** [new Error(message)], and the [TypeError]s of the language. *)
Definition JError (message : string) : jsvalue := JObject (JString message).

(** What the routing code does to the outside: it calls [onClick]
    callbacks and writes to the console. *)
Inductive event :=
| Invoked (id : nat) (x y : JS.number)   (* onClick({x, y}) of callback [id] *)
| Logged (message : jsvalue).            (* console.log(message) *)

(** An [onClick] callback: it is identified by [cb_id]; called, it either
    returns or throws a value, whichever value that is.  Callbacks are
    synchronous. *)
Record callback := {
  cb_id : nat;
  cb_throws : option jsvalue
}.

(** A computation that returns a value or throws one, after a sequence of
    events. *)
Inductive completion (A : Type) :=
| Normal (a : A)
| Throw (error : jsvalue).

Arguments Throw {A} error.

Definition M (A : Type) : Type := list event * completion A.

Definition ret {A} (a : A) : M A := ([], Normal a).

(** [throw error]. *)
Definition throwValue {A} (error : jsvalue) : M A := ([], Throw error).

(** [throw new Error(message)], and the raising of a [TypeError] with
    that message. *)
Definition throw {A} (message : string) : M A := throwValue (JError message).

Definition bind {A B} (m : M A) (k : A -> M B) : M B :=
  match m with
  | (t, Normal a) => let '(t', r) := k a in (t ++ t', r)
  | (t, Throw e) => (t, Throw e)
  end.

(** [try { m } catch (error) { handler error }]. *)
Definition tryCatch {A} (m : M A) (handler : jsvalue -> M A) : M A :=
  match m with
  | (t, Normal a) => (t, Normal a)
  | (t, Throw e) => let '(t', r) := handler e in (t ++ t', r)
  end.

Definition emit (e : event) : M unit := ([e], Normal tt).

Declare Scope js_scope.
Delimit Scope js_scope with js.
Notation "x <- m ;; k" := (bind m (fun x => k))
  (at level 61, m at next level, right associativity) : js_scope.
Notation "' pat <- m ;; k" :=
  (bind m (fun r => match r with pat => k end))
  (at level 61, pat pattern, m at next level, right associativity) : js_scope.
Notation "m ;; k" := (bind m (fun _ => k))
  (at level 61, right associativity) : js_scope.

(** [cb({x, y})]. *)
Definition call (cb : callback) (x y : JS.number) : M unit :=
  (emit (Invoked (cb_id cb) x y) ;;
   match cb_throws cb with
   | Some error => throwValue error
   | None => ret tt
   end)%js.

(** [error.message]: reading a property of [null] or of [undefined]
    raises a [TypeError]. *)
Definition messageOf (error : jsvalue) : M jsvalue :=
  match error with
  | JNull => throw "Cannot read properties of null (reading 'message')"
  | JUndefined =>
      throw "Cannot read properties of undefined (reading 'message')"
  | JObject message => ret message
  | JBoolean _ | JNumber _ | JString _ => ret JUndefined
  end.

Definition trace {A} (m : M A) : list event := fst m.

(** The callbacks called by a computation, in order. *)
Definition invocations {A} (m : M A) : list nat :=
  flat_map (fun e => match e with Invoked id _ _ => [id] | Logged _ => [] end)
           (trace m).

(* ===================================================================== *)
(** * Elements *)
(* ===================================================================== *)

(** [element.type]: the component an element was created from.  The
    builder tells apart the components it imports; every other component
    ([Rect], [Image], [Path], [DynamicSVG], [H2], [INPUT], ...) is
    [OtherType] with its name. *)
Inductive elementType :=
| CircleType | EllipseType | PolygonType | LineType | ToggleType
| TextType | LinkType | H1Type
| OtherType (name : string).

Definition elementType_eqb (a b : elementType) : bool :=
  match a, b with
  | CircleType, CircleType | EllipseType, EllipseType
  | PolygonType, PolygonType | LineType, LineType
  | ToggleType, ToggleType | TextType, TextType
  | LinkType, LinkType | H1Type, H1Type => true
  | OtherType n, OtherType m => String.eqb n m
  | _, _ => false
  end.

(** [element.props]: the properties the routing code reads.  A numeric
    property holds a number or is [undefined]. *)
Module Props.
Record t := {
  x : JS.value; y : JS.value; width : JS.value; height : JS.value;
  cx : JS.value; cy : JS.value; rx : JS.value; ry : JS.value;
  radius : JS.value;
  x1 : JS.value; y1 : JS.value; x2 : JS.value; y2 : JS.value;
  strokeWidth : JS.value;
  fontSize : JS.value;
  points : string;
  onClick : option callback
}.

(** The properties all [undefined] ([points] is only read on polygons,
    whose type requires it). *)
Definition empty : t :=
  {| x := None; y := None; width := None; height := None;
     cx := None; cy := None; rx := None; ry := None; radius := None;
     x1 := None; y1 := None; x2 := None; y2 := None;
     strokeWidth := None; fontSize := None;
     points := EmptyString; onClick := None |}.
End Props.

(** A child, and what [props.children] holds: an element, a string, a
    number, a boolean, [null], [undefined], or an array of these, arrays
    included.  [props.children] is [undefined] where an element is given
    no children.

    Of a number that is a child the code reads the truthiness and the
    text, [n.toString()].  The language leaves the last digit of that
    text to the engine, and no code of the repository computes it: the
    text is given with the number. *)
#[warnings="-register-all"]
Inductive jsx :=
| Element (type : elementType) (props : Props.t) (children : jsx)
| TextLeaf (s : string)
| NumberLeaf (n : JS.number) (text : string)
| BooleanLeaf (b : bool)
| NullLeaf
| UndefinedLeaf
| ArrayOf (items : list jsx).

(** [child.props?.onClick] for a child that is not [null] or
    [undefined]: [undefined] on what is no element. *)
Definition onClickOf (child : jsx) : option callback :=
  match child with
  | Element _ p _ => Props.onClick p
  | _ => None
  end.

Definition typeOf (child : jsx) : option elementType :=
  match child with
  | Element t _ _ => Some t
  | _ => None
  end.

Definition hasType (child : jsx) (t : elementType) : bool :=
  match typeOf child with
  | Some t' => elementType_eqb t' t
  | None => false
  end.

(** The properties of an element; what is no element has none, and
    reading one through [?.] gives [undefined]. *)
Definition propsOf (child : jsx) : Props.t :=
  match child with
  | Element _ p _ => p
  | _ => Props.empty
  end.

(** [null] and [undefined], which have no property to read. *)
Definition isNullish (child : jsx) : bool :=
  match child with
  | NullLeaf | UndefinedLeaf => true
  | _ => false
  end.

(** [Array.isArray(child)]. *)
Definition isArray (child : jsx) : bool :=
  match child with
  | ArrayOf _ => true
  | _ => false
  end.

(** [ToBoolean(props.children)]: [undefined], [null], [false], the empty
    string, the zeros and NaN are falsy; an element and every array are
    truthy. *)
Definition truthyChildren (children : jsx) : bool :=
  match children with
  | UndefinedLeaf | NullLeaf => false
  | BooleanLeaf b => b
  | NumberLeaf n _ => JS.truthy n
  | TextLeaf s => negb (String.eqb s EmptyString)
  | Element _ _ _ => true
  | ArrayOf _ => true
  end.

(** [child.props?.children] for a child that is not [null] or
    [undefined]. *)
Definition childrenProp (child : jsx) : jsx :=
  match child with
  | Element _ _ children => children
  | _ => UndefinedLeaf
  end.

(** [Array.isArray(children) ? children : [children]]. *)
Definition toArray (children : jsx) : list jsx :=
  match children with
  | ArrayOf items => items
  | _ => [children]
  end.

(** [items.flatMap(f)] for an [f] that returns arrays and may raise: the
    results in order, one level flattened; the first error ends it. *)
Definition flatMapM {A B : Type} (f : A -> M (list B))
  : list A -> M (list B) :=
  fix flatMap (items : list A) : M (list B) :=
    match items with
    | [] => ret []
    | item :: rest =>
        (found <- f item ;;
         found' <- flatMap rest ;;
         ret (found ++ found'))%js
    end.

(** [getChildrenRecursive]: the child itself, then what is found below
    it, children in order.  [child.props] raises on [null] and on
    [undefined]; a string, a number, a boolean and an array have no
    [props], so that an array found inside an array of children is
    returned as one item and is not entered. *)
Fixpoint getChildrenRecursive (child : jsx) : M (list jsx) :=
  match child with
  | NullLeaf => throw "Cannot read properties of null (reading 'props')"
  | UndefinedLeaf =>
      throw "Cannot read properties of undefined (reading 'props')"
  | Element _ _ children =>
      if truthyChildren children then
        (below <- match children with
                  | ArrayOf childChildren =>
                      flatMapM getChildrenRecursive childChildren
                  | _ => getChildrenRecursive children
                  end ;;
         ret (child :: below))%js
      else ret [child]
  | TextLeaf _ | NumberLeaf _ _ | BooleanLeaf _ | ArrayOf _ => ret [child]
  end.

(* ===================================================================== *)
(** * Hit tests of the shapes *)
(* ===================================================================== *)

Definition fifteen : JS.number := JS.of_Z 15.

(** [Line.doesContainPoint]. *)
Module Line.
Definition line_m (line : jsx) : JS.number :=
  let p := propsOf line in
  JS.div
    (JS.sub (JS.add (JS.toNumber (Props.y2 p)) fifteen)
            (JS.add (JS.toNumber (Props.y1 p)) fifteen))
    (JS.sub (JS.add (JS.toNumber (Props.x2 p)) fifteen)
            (JS.add (JS.toNumber (Props.x1 p)) fifteen)).

Definition line_b (line : jsx) : JS.number :=
  let p := propsOf line in
  JS.sub (JS.add (JS.toNumber (Props.y1 p)) fifteen)
         (JS.mul (line_m line) (JS.add (JS.toNumber (Props.x1 p)) fifteen)).

Definition line_eq (line : jsx) (nx ny : JS.number) : bool :=
  JS.lt (JS.Math.abs
           (JS.sub ny (JS.add (JS.mul (line_m line) nx) (line_b line))))
        (JS.toNumber (Props.strokeWidth (propsOf line))).

Definition doesContainPoint (line : jsx) (x y : JS.number) : bool :=
  line_eq line x y.
End Line.

(** [Circle.doesContainPoint]. *)
Module Circle.
Definition doesContainPoint (circle : jsx) (x y : JS.number) : bool :=
  let p := propsOf circle in
  let radius := JS.toNumber (Props.radius p) in
  let cx := JS.toNumber (Props.cx p) in
  let cy := JS.toNumber (Props.cy p) in
  JS.lt (JS.Math.sqrt
           (JS.add (JS.Math.pow2 (JS.sub x (JS.add cx fifteen)))
                   (JS.Math.pow2 (JS.sub y (JS.add cy fifteen)))))
        radius.
End Circle.

(** [Ellipse.doesContainPoint]. *)
Module Ellipse.
Definition doesContainPoint (ellipse : jsx) (x y : JS.number) : bool :=
  let p := propsOf ellipse in
  let rx := JS.toNumber (Props.rx p) in
  let ry := JS.toNumber (Props.ry p) in
  let cx := JS.toNumber (Props.cx p) in
  let cy := JS.toNumber (Props.cy p) in
  JS.lt (JS.add
           (JS.Math.pow2 (JS.div (JS.sub (JS.sub x cx) fifteen) rx))
           (JS.Math.pow2 (JS.div (JS.sub (JS.sub y cy) fifteen) ry)))
        (JS.of_Z 1).
End Ellipse.

(** [Toggle.doesContainPoint]. *)
Module Toggle.
Definition doesContainPoint (toggle : jsx) (x y : JS.number) : bool :=
  let toggleX := JS.toNumber (Props.x (propsOf toggle)) in
  let toggleY := JS.toNumber (Props.y (propsOf toggle)) in
  JS.ge x (JS.add fifteen toggleX)
  && JS.le x (JS.add (JS.add fifteen toggleX) (JS.of_Z 100))
  && JS.ge y (JS.add fifteen toggleY)
  && JS.le y (JS.add (JS.add fifteen toggleY) (JS.of_Z 20)).
End Toggle.

(** [Point] of [lib/types.ts]. *)
Module Point.
Record t := { x : JS.number; y : JS.number }.
End Point.

(** [Polygon.doesContainPoint]. *)
Module Polygon.

Record edge := {
  x1 : JS.number; y1 : JS.number; x2 : JS.number; y2 : JS.number
}.

(** [props.points.split(" ").map(p => p.split(",")).map(p =>
    ({x: 15 + parseInt(p[0]), y: 15 + parseInt(p[1])}))]. *)
Definition parsePoints (points : string) : list Point.t :=
  map (fun point : list string =>
         {| Point.x := JS.add fifteen (JS.parseIntAt point 0);
            Point.y := JS.add fifteen (JS.parseIntAt point 1) |})
      (map (JS.split ","%char) (JS.split " "%char points)).

(** A point read out of range is [undefined]; its coordinates are not
    read that way by the code below, [points] being never empty and the
    index of the next point being taken modulo its length. *)
Definition pointAt (points : list Point.t) (i : nat) : Point.t :=
  nth i points {| Point.x := JS.NaN; Point.y := JS.NaN |}.

(** [points.map((point, index) => ...)] from [index] on. *)
Fixpoint edgesFrom (points rest : list Point.t) (index : nat) : list edge :=
  match rest with
  | [] => []
  | point :: rest' =>
      let nextPoint := pointAt points (Nat.modulo (index + 1) (List.length points)) in
      {| x1 := Point.x point; y1 := Point.y point;
         x2 := Point.x nextPoint; y2 := Point.y nextPoint |}
      :: edgesFrom points rest' (S index)
  end.

Definition edgesOf (points : list Point.t) : list edge :=
  edgesFrom points points 0.

(** The bounding box of the points. *)
Record box := {
  minX : JS.number; minY : JS.number; maxX : JS.number; maxY : JS.number
}.

Definition boundingBox (points : list Point.t) : box :=
  {| minX := JS.Math.min (map Point.x points);
     minY := JS.Math.min (map Point.y points);
     maxX := JS.Math.max (map Point.x points);
     maxY := JS.Math.max (map Point.y points) |}.

(** [x < minX || x > maxX || y < minY || y > maxY]. *)
Definition outsideBox (b : box) (x y : JS.number) : bool :=
  JS.lt x (minX b) || JS.gt x (maxX b) || JS.lt y (minY b) || JS.gt y (maxY b).

(** The ray from [(points[0].x, -100)] to the query point. *)
Definition rayOf (points : list Point.t) (x y : JS.number) : edge :=
  {| x1 := Point.x (pointAt points 0); y1 := JS.of_Z (-100);
     x2 := x; y2 := y |}.

Definition slope (e : edge) : JS.number :=
  JS.div (JS.sub (y2 e) (y1 e)) (JS.sub (x2 e) (x1 e)).

Definition intercept (e : edge) : JS.number :=
  JS.sub (y1 e) (JS.mul (slope e) (x1 e)).

(** [x0] and [y0] of the loop body. *)
Definition x0 (ray e : edge) : JS.number :=
  JS.div (JS.sub (intercept e) (intercept ray))
         (JS.sub (slope ray) (slope e)).

Definition y0 (ray e : edge) : JS.number :=
  JS.add (JS.mul (slope ray)
                 (JS.div (JS.sub (intercept e) (intercept ray))
                         (JS.sub (slope ray) (slope e))))
         (intercept ray).

(** The two nested conditions of the loop body: the intersection is
    finite, within the bounds of the ray and within the bounding box. *)
Definition counted (b : box) (ray e : edge) : bool :=
  let x0 := x0 ray e in
  let y0 := y0 ray e in
  if JS.isFinite x0 && negb (JS.isNaN x0)
     && JS.isFinite y0 && negb (JS.isNaN y0)
  then
    let startX := JS.Math.min [x1 ray; x2 ray] in
    let endX := JS.Math.max [x1 ray; x2 ray] in
    let startY := JS.Math.min [y1 ray; y2 ray] in
    let endY := JS.Math.max [y1 ray; y2 ray] in
    JS.ge x0 startX && JS.le x0 endX && JS.ge y0 startY && JS.le y0 endY
    && JS.ge x0 (minX b) && JS.le x0 (maxX b)
    && JS.ge y0 (minY b) && JS.le y0 (maxY b)
  else false.

(** [intersections] after the loop over the edges. *)
Fixpoint countIntersections (b : box) (ray : edge) (edges : list edge)
         (intersections : nat) : nat :=
  match edges with
  | [] => intersections
  | e :: edges' =>
      countIntersections b ray edges'
        (if counted b ray e then S intersections else intersections)
  end.

(** The ray casting, from [// Create a ray] on. *)
Definition rayCasting (points : list Point.t) (x y : JS.number) : bool :=
  let ray := rayOf points x y in
  Nat.odd (countIntersections (boundingBox points) ray (edgesOf points) 0).

Definition doesContainPointOf (points : list Point.t) (x y : JS.number)
  : bool :=
  if outsideBox (boundingBox points) x y then false
  else rayCasting points x y.

Definition doesContainPoint (polygon : jsx) (x y : JS.number) : bool :=
  doesContainPointOf (parsePoints (Props.points (propsOf polygon))) x y.

End Polygon.

(* ===================================================================== *)
(** * [Text.computeDimensions] *)
(* ===================================================================== *)

(** [computedDimensions]: an object [{w, h}]. *)
Record dimensions := { w : JS.value; h : JS.value }.

Module Text.

(** [String(child)] as [Array.prototype.join] takes it: the empty text
    for [null] and [undefined], the text itself for a string, the decimal
    text of a number, "true" or "false", "[object Object]" for an element,
    and for an array its own elements joined by commas. *)
Fixpoint childToString (child : jsx) : string :=
  match child with
  | TextLeaf s => s
  | NumberLeaf _ text => text
  | BooleanLeaf b => if b then "true" else "false"
  | Element _ _ _ => "[object Object]"
  | NullLeaf | UndefinedLeaf => ""
  | ArrayOf items => JS.join "," (map childToString items)
  end.

(** [children.toString()]: [undefined] and [null] have no method to
    call. *)
Definition childrenToString (children : jsx) : M string :=
  match children with
  | UndefinedLeaf =>
      throw "Cannot read properties of undefined (reading 'toString')"
  | NullLeaf =>
      throw "Cannot read properties of null (reading 'toString')"
  | _ => ret (childToString children)
  end.

(** [children.toString().split("\n")]. *)
Definition linesOf (text : string) : list string :=
  JS.split (ascii_of_nat 10) text.

(** [Math.max(...lines.map(line => line.length)) * (fontSize || 16)
    - (fontSize || 16)]. *)
Definition textWidth (fontSize : JS.value) (text : string) : JS.number :=
  JS.sub
    (JS.mul (JS.Math.max
               (map (fun line => JS.of_nat (String.length line))
                    (linesOf text)))
            (JS.orDefault fontSize (JS.of_Z 16)))
    (JS.orDefault fontSize (JS.of_Z 16)).

(** [1.1 * (fontSize || 16) * (lines.length + 1)]. *)
Definition textHeight (fontSize : JS.value) (text : string) : JS.number :=
  JS.mul (JS.mul JS.lit_1_1 (JS.orDefault fontSize (JS.of_Z 16)))
         (JS.add (JS.of_nat (List.length (linesOf text))) (JS.of_Z 1)).

Definition computeDimensions (text : jsx) : M dimensions :=
  let p := propsOf text in
  let width := Props.width p in
  let height := Props.height p in
  let fontSize := Props.fontSize p in
  let children := childrenProp text in
  (if JS.truthyValue width && JS.truthyValue height then
     ret {| w := width; h := height |}
   else if JS.truthyValue width && negb (JS.truthyValue height) then
     s <- childrenToString children ;;
     ret {| w := width; h := Some (textHeight fontSize s) |}
   else if negb (JS.truthyValue width) && JS.truthyValue height then
     s <- childrenToString children ;;
     ret {| w := Some (textWidth fontSize s); h := height |}
   else
     s <- childrenToString children ;;
     s' <- childrenToString children ;;
     ret {| w := Some (textWidth fontSize s);
            h := Some (textHeight fontSize s') |})%js.

End Text.

(* ===================================================================== *)
(** * The click handlers of [ClickableDetail] *)
(* ===================================================================== *)

(** The two kinds of closures pushed on [newClickHandlers]: the one of a
    top-level child, which reads the variable [heightUpToNow] when it runs,
    and the one of an element found by [getChildrenRecursive], which holds
    its [computedDimensions]. *)
Inductive handler :=
| TopLevelHandler (child : jsx)
| NestedHandler (childChild : jsx) (computedDimensions : dimensions).

(** The element a handler was made for. *)
Definition handlerElement (hd : handler) : jsx :=
  match hd with
  | TopLevelHandler child => child
  | NestedHandler childChild _ => childChild
  end.

(** [child.props.onClick({x, y})]. *)
Definition callOnClick (child : jsx) (x y : JS.number) : M unit :=
  match onClickOf child with
  | Some cb => call cb x y
  | None => throw "onClick is not a function"
  end.

(** The condition of the handler of a top-level child. *)
Definition topLevelTest (heightUpToNow : JS.number) (child : jsx)
           (x y : JS.number) : bool :=
  let p := propsOf child in
  JS.gt x (JS.toNumber (Props.x p))
  || JS.lt x (JS.add (JS.toNumber (Props.x p)) (JS.toNumber (Props.width p)))
  || JS.gt y (JS.add heightUpToNow (JS.toNumber (Props.y p)))
  || JS.lt y (JS.add (JS.add heightUpToNow (JS.toNumber (Props.y p)))
                     (JS.toNumber (Props.height p))).

(** The last branch of the test of a nested handler: the box of an element
    that is no line, circle, ellipse, polygon or toggle. *)
Definition boxTest (childChild : jsx) (computedDimensions : dimensions)
           (x y : JS.number) : bool :=
  let p := propsOf childChild in
  JS.gt x (JS.add fifteen (JS.toNumber (Props.x p)))
  && JS.lt x (JS.sub (JS.add (JS.toNumber (Props.x p))
                             (JS.toNumber (w computedDimensions)))
                     fifteen)
  && JS.gt y (JS.add fifteen (JS.toNumber (Props.y p)))
  && JS.lt y (JS.add (JS.toNumber (Props.y p))
                     (JS.toNumber (h computedDimensions))).

(** The chain of tests of a nested handler: [false] where the handler
    returns [false] before it reaches its [try]. *)
Definition nestedTest (childChild : jsx) (computedDimensions : dimensions)
           (x y : JS.number) : bool :=
  if hasType childChild LineType then Line.doesContainPoint childChild x y
  else if hasType childChild CircleType then
    Circle.doesContainPoint childChild x y
  else if hasType childChild EllipseType then
    Ellipse.doesContainPoint childChild x y
  else if hasType childChild PolygonType then
    Polygon.doesContainPoint childChild x y
  else if hasType childChild ToggleType then
    Toggle.doesContainPoint childChild x y
  else boxTest childChild computedDimensions x y.

(** The test a handler makes before it calls [onClick]. *)
Definition hitTest (heightUpToNow : JS.number) (hd : handler)
           (x y : JS.number) : bool :=
  match hd with
  | TopLevelHandler child => topLevelTest heightUpToNow child x y
  | NestedHandler childChild dims => nestedTest childChild dims x y
  end.

(** Running a handler.  [heightUpToNow] is the value that the variable of
    that name holds when the handler runs. *)
Definition runHandler (heightUpToNow : JS.number) (hd : handler)
           (x y : JS.number) : M bool :=
  match hd with
  | TopLevelHandler child =>
      if topLevelTest heightUpToNow child x y then
        (callOnClick child x y ;; ret true)%js
      else ret false
  | NestedHandler childChild dims =>
      if negb (nestedTest childChild dims x y) then ret false
      else
        tryCatch
          (callOnClick childChild x y ;; ret true)%js
          (fun error =>
             (message <- messageOf error ;;
              emit (Logged message) ;;
              ret false)%js)
  end.

(* ===================================================================== *)
(** * Building the click handlers *)
(* ===================================================================== *)

(** The check made on an element of [getChildrenRecursive(child)] that has
    an [onClick]. *)
Definition checkGeometry (childChild : jsx) : M unit :=
  let p := propsOf childChild in
  if (JS.isUndefined (Props.x p) || JS.isUndefined (Props.y p))
     && negb (hasType childChild CircleType)
     && negb (hasType childChild EllipseType)
     && negb (hasType childChild PolygonType)
     && negb (hasType childChild LineType)
  then
    if hasType childChild H1Type
       && (JS.isUndefined (Props.width p) || JS.isUndefined (Props.height p))
    then throw "Child of clickable element must have x, y, width, and height props"
    else throw "Child of clickable element must have explicit dimensions and position."
  else ret tt.

(** [child.props], read for what follows it: it raises on [null] and on
    [undefined], and on nothing else. *)
Definition readProps (child : jsx) : M unit :=
  match child with
  | NullLeaf => throw "Cannot read properties of null (reading 'props')"
  | UndefinedLeaf =>
      throw "Cannot read properties of undefined (reading 'props')"
  | _ => ret tt
  end.

(** The body of [for (const childChild of childChildren)] for one
    item: the handlers pushed, none or one. *)
Definition nestedHandlerOf (childChild : jsx) : M (list handler) :=
  (readProps childChild ;;
   match onClickOf childChild with
   | None => ret []
   | Some _ =>
       checkGeometry childChild ;;
       computedDimensions <-
         (if hasType childChild TextType || hasType childChild LinkType
          then Text.computeDimensions childChild
          else ret {| w := Props.width (propsOf childChild);
                      h := Props.height (propsOf childChild) |}) ;;
       ret [NestedHandler childChild computedDimensions]
   end)%js.

Fixpoint nestedHandlers (childChildren : list jsx) : M (list handler) :=
  match childChildren with
  | [] => ret []
  | childChild :: rest =>
      (hs <- nestedHandlerOf childChild ;;
       hs' <- nestedHandlers rest ;;
       ret (hs ++ hs'))%js
  end.

(** The body of [for (const child of children)] for one top-level child:
    the handlers pushed and the value added to [heightUpToNow].
    [child.props] raises on [null] and on [undefined]; a top-level child
    that is a string, a number, a boolean or an array has no [props] to
    read [onClick] from. *)
Definition topLevelHandlersOf (child : jsx) : M (list handler * JS.number) :=
  match child with
  | NullLeaf => throw "Cannot read properties of null (reading 'props')"
  | UndefinedLeaf =>
      throw "Cannot read properties of undefined (reading 'props')"
  | TextLeaf _ | NumberLeaf _ _ | BooleanLeaf _ | ArrayOf _ =>
      throw "Cannot read properties of undefined (reading 'onClick')"
  | Element _ p children =>
      (let own := match Props.onClick p with
                  | Some _ => [TopLevelHandler child]
                  | None => []
                  end in
       nested <- (if truthyChildren children
                  then childChildren <- getChildrenRecursive child ;;
                       nestedHandlers childChildren
                  else ret []) ;;
       ret (own ++ nested, JS.orDefault (Props.height p) (JS.of_Z 0)))%js
  end.

(** The loop over the top-level children, from given values of
    [newClickHandlers] and [heightUpToNow]. *)
Fixpoint buildLoop (children : list jsx) (newClickHandlers : list handler)
         (heightUpToNow : JS.number) : M (list handler * JS.number) :=
  match children with
  | [] => ret (newClickHandlers, heightUpToNow)
  | child :: rest =>
      ('(hs, height) <- topLevelHandlersOf child ;;
       buildLoop rest (newClickHandlers ++ hs) (JS.add heightUpToNow height))%js
  end.

(** The click handlers of one run of the effect, with the value that
    the variable [heightUpToNow] of that run is left with: the closures
    of the top-level children share that variable, and they run after
    the loop has ended. *)
Record registry := {
  handlers : list handler;
  heightUpToNow : JS.number
}.

(** [newClickHandlers] at the end of the loop of the effect, over
    [Array.isArray(props.children) ? props.children : [props.children]]. *)
Definition buildClickHandlers (children : jsx) : M registry :=
  ('(hs, height) <- buildLoop (toArray children) [] (JS.of_Z 0) ;;
   ret {| handlers := hs; heightUpToNow := height |})%js.

(* ===================================================================== *)
(** * The dispatcher *)
(* ===================================================================== *)

(** [for (const clickHandler of clickHandlers)
       if (clickHandler(x, y)) break;]. *)
Fixpoint dispatchLoop (heightUpToNow : JS.number) (hs : list handler)
         (x y : JS.number) : M unit :=
  match hs with
  | [] => ret tt
  | hd :: rest =>
      (handled <- runHandler heightUpToNow hd x y ;;
       if handled : bool then ret tt
       else dispatchLoop heightUpToNow rest x y)%js
  end.

(** [clickHandler.current]: what is done with a text received from the
    script that watches the mouse. *)
Definition clickHandler (clickHandlers : registry) (output : string)
  : M unit :=
  let coords := JS.split ","%char output in
  if negb (List.length coords =? 2)%nat then ret tt
  else
    let x := JS.parseIntAt coords 0 in
    let y := JS.parseIntAt coords 1 in
    dispatchLoop (heightUpToNow clickHandlers) (handlers clickHandlers) x y.

(* ===================================================================== *)
(** * The traversal a registry is compared with *)
(* ===================================================================== *)

(** The depth-first traversal of a tree, siblings in order: an element,
    then the traversal of its children; the values of an array one after
    the other, wherever the array is found.  It is given on the tree
    alone, and is what the order of the handlers is stated against. *)
Fixpoint depthFirst (node : jsx) : list jsx :=
  match node with
  | Element _ _ children => node :: depthFirst children
  | ArrayOf items => flat_map depthFirst items
  | TextLeaf _ | NumberLeaf _ _ | BooleanLeaf _ | NullLeaf | UndefinedLeaf =>
      [node]
  end.

(** A node that carries an interaction callback. *)
Definition isInteractive (node : jsx) : bool :=
  match onClickOf node with
  | Some _ => true
  | None => false
  end.

(** The nodes of a list of top-level siblings that carry a callback, in
    depth-first order. *)
Definition interactiveNodes (children : list jsx) : list jsx :=
  filter isInteractive (flat_map depthFirst children).

(** What the traversal of [getChildrenRecursive] meets from a node on, in
    order: the node, and, when it is an element whose children are
    truthy, what is met from its only child, or from each item of its
    array of children.  An array that is an item is met and not
    entered. *)
Fixpoint visited (node : jsx) : list jsx :=
  match node with
  | Element _ _ children =>
      if truthyChildren children then
        node :: match children with
                | ArrayOf childChildren => flat_map visited childChildren
                | _ => visited children
                end
      else [node]
  | TextLeaf _ | NumberLeaf _ _ | BooleanLeaf _ | NullLeaf | UndefinedLeaf
  | ArrayOf _ => [node]
  end.

(** A tree whose arrays hold elements, strings, numbers and booleans
    only: no [null], no [undefined] and no array is an item of an
    array. *)
Fixpoint hasPlainArrays (node : jsx) : bool :=
  match node with
  | Element _ _ children => hasPlainArrays children
  | ArrayOf items =>
      forallb (fun item =>
                 negb (isNullish item) && negb (isArray item)
                 && hasPlainArrays item)
              items
  | TextLeaf _ | NumberLeaf _ _ | BooleanLeaf _ | NullLeaf | UndefinedLeaf =>
      true
  end.

(** The shape kinds the geometry check lets through whatever their
    properties. *)
Definition isExempt (node : jsx) : bool :=
  hasType node CircleType || hasType node EllipseType
  || hasType node PolygonType || hasType node LineType.

(** A node for which the body of the inner loop raises nothing: without a
    callback; or else with [x] and [y] in its properties, or of an exempt
    kind, and, for a text or a link, with both dimensions truthy or with
    children, neither [undefined] nor [null], to measure. *)
Definition isBuildable (node : jsx) : bool :=
  match onClickOf node with
  | None => true
  | Some _ =>
      let p := propsOf node in
      (isExempt node
       || (negb (JS.isUndefined (Props.x p))
           && negb (JS.isUndefined (Props.y p))))
      && (if hasType node TextType || hasType node LinkType then
            (JS.truthyValue (Props.width p) && JS.truthyValue (Props.height p))
            || negb (isNullish (childrenProp node))
          else true)
  end.

(** A top-level child on which the builder raises nothing and registers no
    node twice: an element that, when its children are truthy, has plain
    arrays, has only buildable nodes in its tree and carries no callback
    itself. *)
Definition isPlainTopLevel (child : jsx) : bool :=
  match child with
  | Element _ p children =>
      if truthyChildren children then
        hasPlainArrays child
        && forallb isBuildable (depthFirst child)
        && negb (isInteractive child)
      else true
  | _ => false
  end.

(* ===================================================================== *)
(** * The polygon test that also bounds each intersection by its edge *)
(* ===================================================================== *)

(** The count that the comment of the loop of [Polygon.doesContainPoint]
    announces ("within the bounds of the ray and the edge"): [counted],
    and the intersection within the bounding segment of the edge.  The
    source does not make that last test; this definition is what the
    source is compared with. *)
Module PolygonWithinEdge.

Definition withinEdge (ray e : Polygon.edge) : bool :=
  let x0 := Polygon.x0 ray e in
  let y0 := Polygon.y0 ray e in
  JS.ge x0 (JS.Math.min [Polygon.x1 e; Polygon.x2 e])
  && JS.le x0 (JS.Math.max [Polygon.x1 e; Polygon.x2 e])
  && JS.ge y0 (JS.Math.min [Polygon.y1 e; Polygon.y2 e])
  && JS.le y0 (JS.Math.max [Polygon.y1 e; Polygon.y2 e]).

Definition counted (b : Polygon.box) (ray e : Polygon.edge) : bool :=
  Polygon.counted b ray e && withinEdge ray e.

Definition doesContainPoint (polygon : jsx) (x y : JS.number) : bool :=
  let points := Polygon.parsePoints (Props.points (propsOf polygon)) in
  let b := Polygon.boundingBox points in
  if Polygon.outsideBox b x y then false
  else
    let ray := Polygon.rayOf points x y in
    Nat.odd (List.length (filter (counted b ray) (Polygon.edgesOf points))).

End PolygonWithinEdge.

(* ===================================================================== *)
(** * Elements and trees used in the examples *)
(* ===================================================================== *)

Module Examples.

Definition num (z : Z) : JS.value := Some (JS.of_Z z).

Definition returning (id : nat) : option callback :=
  Some {| cb_id := id; cb_throws := None |}.

(** A callback that throws [new Error(message)]. *)
Definition throwing (id : nat) (message : string) : option callback :=
  Some {| cb_id := id; cb_throws := Some (JError message) |}.

(** The properties of an element that declares a box. *)
Definition boxProps (x y width height : JS.value)
           (onClick : option callback) : Props.t :=
  {| Props.x := x; Props.y := y;
     Props.width := width; Props.height := height;
     Props.cx := None; Props.cy := None; Props.rx := None; Props.ry := None;
     Props.radius := None;
     Props.x1 := None; Props.y1 := None; Props.x2 := None; Props.y2 := None;
     Props.strokeWidth := None; Props.fontSize := None;
     Props.points := EmptyString; Props.onClick := onClick |}.

(** [<Rect x y width height onClick />]. *)
Definition Rect (x y width height : Z) (onClick : option callback) : jsx :=
  Element (OtherType "Rect")
          (boxProps (num x) (num y) (num width) (num height) onClick)
          UndefinedLeaf.

(** [<DynamicSVG height>{children}</DynamicSVG>]; it has no [onClick]. *)
Definition DynamicSVG (height : JS.value) (children : list jsx) : jsx :=
  Element (OtherType "DynamicSVG")
          (boxProps None None None height None)
          (ArrayOf children).

(** [<Polygon points onClick />]. *)
Definition Polygon (points : string) (onClick : option callback) : jsx :=
  Element PolygonType
          {| Props.x := None; Props.y := None;
             Props.width := None; Props.height := None;
             Props.cx := None; Props.cy := None;
             Props.rx := None; Props.ry := None; Props.radius := None;
             Props.x1 := None; Props.y1 := None;
             Props.x2 := None; Props.y2 := None;
             Props.strokeWidth := None; Props.fontSize := None;
             Props.points := points; Props.onClick := onClick |}
          UndefinedLeaf.

(** [<Line x1 y1 x2 y2 strokeWidth onClick />]. *)
Definition Line (x1 y1 x2 y2 strokeWidth : Z) (onClick : option callback)
  : jsx :=
  Element LineType
          {| Props.x := None; Props.y := None;
             Props.width := None; Props.height := None;
             Props.cx := None; Props.cy := None;
             Props.rx := None; Props.ry := None; Props.radius := None;
             Props.x1 := num x1; Props.y1 := num y1;
             Props.x2 := num x2; Props.y2 := num y2;
             Props.strokeWidth := num strokeWidth; Props.fontSize := None;
             Props.points := EmptyString; Props.onClick := onClick |}
          UndefinedLeaf.

(** [<Toggle x y onClick />]. *)
Definition Toggle (x y : JS.value) (onClick : option callback) : jsx :=
  Element ToggleType (boxProps x y (num 60) (num 30) onClick) UndefinedLeaf.

(** [<Text x y width height onClick>{text}</Text>]. *)
Definition Text (x y : Z) (width height : JS.value) (text : string)
           (onClick : option callback) : jsx :=
  Element TextType (boxProps (num x) (num y) width height onClick)
          (TextLeaf text).

(** Two overlapping rectangles A then B under one [DynamicSVG]; the
    callback of A throws. *)
Definition overlapping : jsx :=
  DynamicSVG None
    [Rect 0 0 100 100 (throwing 1 "A failed");
     Rect 0 0 100 100 (returning 2)].

(** Three rectangles that overlap at (50, 50); the callback of the first
    throws. *)
Definition stacked : jsx :=
  DynamicSVG None
    [Rect 0 0 200 200 (throwing 1 "boom");
     Rect 20 20 100 100 (returning 2);
     Rect 0 0 300 300 (returning 3)].

(** One clickable rectangle that is itself a top-level child. *)
Definition topLevelRect : jsx :=
  Rect 0 0 100 100 (returning 1).

(** Two top-level siblings of heights 50 and 100; the second holds a
    clickable rectangle at local y = 10. *)
Definition twoSiblings : jsx :=
  ArrayOf
    [DynamicSVG (num 50) [Rect 0 0 100 50 None];
     DynamicSVG (num 100) [Rect 0 10 100 40 (returning 1)]].

(** A toggle that declares no [x], under a [DynamicSVG]. *)
Definition toggleWithoutX : jsx :=
  DynamicSVG None [Toggle None (num 0) (returning 1)].

(** An L-shaped hexagon. *)
Definition hexagonL : jsx :=
  Polygon "0,0 100,0 100,100 50,100 50,50 0,50" (returning 1).

(** A square. *)
Definition square : jsx :=
  Polygon "0,0 100,0 100,100 0,100" (returning 1).

(** A top-level element that carries a callback and has a child. *)
Definition clickableGroup : jsx :=
  Element (OtherType "G")
          (boxProps (num 0) (num 0) (num 10) (num 10) (returning 1))
          (ArrayOf [Rect 0 0 10 10 None]).

(** The handler registered for an element that is found below a
    top-level child and is no text or link. *)
Definition nestedHandlerFor (node : jsx) : handler :=
  NestedHandler node {| w := Props.width (propsOf node);
                        h := Props.height (propsOf node) |}.

(** The coordinate an integer stands for. *)
Definition at_ (z : Z) : JS.number := JS.of_Z z.

(** [<Circle cx cy radius onClick />]. *)
Definition Circle (cx cy radius : Z) (onClick : option callback) : jsx :=
  Element CircleType
          {| Props.x := None; Props.y := None;
             Props.width := None; Props.height := None;
             Props.cx := num cx; Props.cy := num cy;
             Props.rx := None; Props.ry := None; Props.radius := num radius;
             Props.x1 := None; Props.y1 := None;
             Props.x2 := None; Props.y2 := None;
             Props.strokeWidth := None; Props.fontSize := None;
             Props.points := EmptyString; Props.onClick := onClick |}
          UndefinedLeaf.

(** A group without callback. *)
Definition G (children : list jsx) : jsx :=
  Element (OtherType "G") (boxProps None None None None None)
          (ArrayOf children).

(** Three top-level children: a [DynamicSVG] of height 50 with a
    clickable rectangle, then a group holding a clickable circle and a
    rectangle without callback, and last a clickable toggle; a
    clickable rectangle that is itself a top-level child; and a
    [DynamicSVG] with one clickable line. *)
Definition gallery : list jsx :=
  [DynamicSVG (num 50)
     [Rect 0 0 100 40 (returning 1);
      G [Circle 100 100 50 (returning 2); Rect 0 0 10 10 None];
      Toggle (num 0) (num 0) (returning 3)];
   Rect 0 0 100 100 (returning 4);
   DynamicSVG None [Line 0 0 100 100 10 (returning 5)]].

(** [<H1 x width height onClick>Title</H1>], which declares no [y]. *)
Definition headingWithoutY : jsx :=
  Element H1Type (boxProps (num 0) None (num 10) (num 10) (returning 1))
          (TextLeaf "Title").

(** [<DynamicSVG><Path d onClick /></DynamicSVG>]: a clickable path that
    declares neither position nor size. *)
Definition unplacedPath : jsx :=
  DynamicSVG None
    [Element (OtherType "Path")
             (boxProps None None None None (returning 1))
             UndefinedLeaf].

(** A [DynamicSVG] whose array of children holds a clickable rectangle
    and an array; the inner array holds a clickable rectangle and a
    clickable path that declares neither position nor size. *)
Definition innerArray : jsx :=
  DynamicSVG None
    [Rect 0 0 10 10 (returning 1);
     ArrayOf [Rect 20 20 10 10 (returning 2);
              Element (OtherType "Path")
                      (boxProps None None None None (returning 3))
                      UndefinedLeaf]].

(** A [DynamicSVG] whose array of children holds a clickable rectangle
    and [null], as [{condition ? <Rect /> : null}] leaves it. *)
Definition withNull : jsx :=
  DynamicSVG None [Rect 0 0 10 10 (returning 1); NullLeaf].

(** Two lines of text. *)
Definition twoLines : string :=
  "Hello" ++ String (ascii_of_nat 10) "World!".

(** A clickable text of two lines that declares neither width nor
    height nor font size. *)
Definition unsizedText : jsx :=
  Text 10 10 None None twoLines (returning 1).

(** A text that declares a width of 0 and a height of 20. *)
Definition zeroWidthText : jsx :=
  Text 0 0 (num 0) (num 20) "Hello" (returning 1).

End Examples.

(* ===================================================================== *)
(** * Payloads, registries and numbers: what further properties speak of *)
(* ===================================================================== *)

(** The number of occurrences of a code unit in a string. *)
Fixpoint countChar (c : ascii) (s : string) : nat :=
  match s with
  | EmptyString => 0
  | String c' r => (if Ascii.eqb c' c then 1 else 0) + countChar c r
  end.






(** A handler of an element found below a top-level child. *)
Definition isNestedHandler (hd : handler) : bool :=
  match hd with
  | NestedHandler _ _ => true
  | TopLevelHandler _ => false
  end.

(** A handler whose element carries a callback. *)
Definition hasCallback (hd : handler) : bool :=
  isInteractive (handlerElement hd).

(** The events of a callback that was called at (x, y), threw, and of
    which the property [message] of what it threw was logged. *)
Definition failedCall (x y : JS.number) (failure : nat * jsvalue)
  : list event :=
  [Invoked (fst failure) x y; Logged (snd failure)].

(** An item on which the body of the inner loop raises nothing: it is
    neither [null] nor [undefined], and it is buildable. *)
Definition passes (node : jsx) : bool :=
  negb (isNullish node) && isBuildable node.



(** A top-level child on which the builder raises nothing: an element
    such that, when its children are truthy, the traversal meets no
    [null] and no [undefined], and meets buildable nodes only. *)
Definition isBuildableTopLevel (child : jsx) : bool :=
  match child with
  | Element _ _ children =>
      if truthyChildren children then forallb passes (visited child)
      else true
  | _ => false
  end.

(** A computation that returns a value or raises an [Error], and does
    nothing else: it calls no callback and logs nothing. *)
Definition quiet {A : Type} (m : M A) : Prop :=
  (exists a, m = ret a) \/ (exists message, m = throw message).

(** The nodes a top-level child is registered for, in order: the child
    itself when it carries a callback, then, when its children are
    truthy, the nodes met by the traversal that carry a callback, the
    child itself among them. *)
Definition registeredNodes (child : jsx) : list jsx :=
  (if isInteractive child then [child] else [])
  ++ (if truthyChildren (childrenProp child)
      then filter isInteractive (visited child)
      else []).

(** [heightUpToNow] after the loop: the heights of the top-level children,
    each [height || 0], added from the left to 0. *)
Definition totalHeight (children : list jsx) : JS.number :=
  fold_left JS.add
            (map (fun child =>
                    JS.orDefault (Props.height (propsOf child)) (JS.of_Z 0))
                 children)
            (JS.of_Z 0).

(** A number that is not below zero: NaN, a zero, or a positive number,
    +Infinity included. *)
Definition notNegative (a : JS.number) : bool :=
  match a with
  | S754_nan | S754_zero _ => true
  | S754_infinity s | S754_finite s _ _ => negb s
  end.


(* ===================================================================== *)
(** * [useToggleDelegates] *)
(* ===================================================================== *)

Module ToggleDelegates.

(** An element of the array [states]: a boolean, [undefined], or a hole
    left by a write beyond the end. *)
Inductive entry :=
| Bool (b : bool)
| Undefined
| Hole.

Definition array := list entry.

(** [[...states]]: a copy, whose holes are read as [undefined]. *)
Definition spread (states : array) : array :=
  map (fun e => match e with Hole => Undefined | _ => e end) states.

(** [states[index]]: [undefined] beyond the end and at a hole. *)
Definition get (states : array) (index : nat) : entry :=
  match nth index states Undefined with
  | Hole => Undefined
  | e => e
  end.

(** [!e]. *)
Definition not (e : entry) : bool :=
  match e with
  | Bool b => negb b
  | Undefined | Hole => true
  end.

(** [states[index] = v] on a copy: a write beyond the end lengthens the
    array and leaves holes. *)
Fixpoint set (states : array) (index : nat) (v : entry) : array :=
  match index, states with
  | O, [] => [v]
  | O, _ :: rest => v :: rest
  | S index', [] => Hole :: set [] index' v
  | S index', e :: rest => e :: set rest index' v
  end.

(** The array that [toggle(index)] passes to [setStates]. *)
Definition toggle (states : array) (index : nat) : array :=
  let newStates := spread states in
  set newStates index (Bool (not (get newStates index))).

(** The array that [setEnabled(index, enabled)] passes to [setStates]. *)
Definition setEnabled (states : array) (index : nat) (enabled : bool)
  : array :=
  let newStates := spread states in
  set newStates index (Bool enabled).

(** An array of booleans, as [initialStates] is. *)
Definition ofBooleans (bs : list bool) : array := map Bool bs.

(** A list of booleans with the one at [index] flipped. *)
Definition flipAt (bs : list bool) (index : nat) : list bool :=
  firstn index bs ++ negb (nth index bs false) :: skipn (S index) bs.

(** The indices of the delegates that [states.map] returns: one for each
    element that is no hole. *)
Definition delegateIndices (states : array) : list nat :=
  filter (fun i => match nth i states Hole with Hole => false | _ => true end)
         (seq 0 (List.length states)).

End ToggleDelegates.

(* ===================================================================== *)
(** * [execScript]: the arguments given to [osascript] *)
(* ===================================================================== *)

Module ExecScript.

(** [s.replaceAll(c, by)] for a pattern of one code unit. *)
Fixpoint replaceAll (c : ascii) (by_ : string) (s : string) : string :=
  match s with
  | EmptyString => EmptyString
  | String c' r =>
      if Ascii.eqb c' c then (by_ ++ replaceAll c by_ r)%string
      else String c' (replaceAll c by_ r)
  end.

Definition quote : ascii := ascii_of_nat 34.
Definition backslash : ascii := ascii_of_nat 92.
Definition newline : ascii := ascii_of_nat 10.

(** [script.replaceAll('"', '\\"').replaceAll("\n", "\\n")]. *)
Definition escapeScript (script : string) : string :=
  replaceAll newline (String backslash "n")
             (replaceAll quote (String backslash (String quote EmptyString))
                         script).

(** [script.startsWith("/")]. *)
Definition startsWithSlash (script : string) : bool :=
  match script with
  | String c _ => Ascii.eqb c "/"
  | EmptyString => false
  end.

(** The arguments of [spawn("osascript", ...)]; [args] holds the
    arguments already turned to strings. *)
Definition argv (script : string) (args : list string) (language : string)
  : list string :=
  (if startsWithSlash script then [] else ["-e"%string])
  ++ [escapeScript script; "-l"%string; language]
  ++ args.

End ExecScript.

(* ===================================================================== *)
(** * The first effect of [ClickableDetail] *)
(* ===================================================================== *)

(** What the component keeps from one render to the next:
    [clickHandlers] and [content]. *)
Record state := {
  clickHandlers : registry;
  content : string
}.

(** [items.map(f)] for an [f] that may raise: the first error ends it. *)
Definition mapM {A B : Type} (f : A -> M B) : list A -> M (list B) :=
  fix map (items : list A) : M (list B) :=
    match items with
    | [] => ret []
    | item :: rest =>
        (b <- f item ;;
         bs <- map rest ;;
         ret (b :: bs))%js
    end.

Section Effect.

(** [ReactDOMServer.renderToString] and [encodeURI] belong to the
    libraries: the effect is given for whatever they return, raise, call
    or log. *)
Variable renderToString : jsx -> M string.
Variable encodeURI : string -> M string.

(** The markup of one top-level child: the template that [children.map]
    fills. *)
Definition imageOf (child : jsx) : M string :=
  (rendered <- renderToString child ;;
   encoded <- encodeURI ("data:image/svg+xml;utf8," ++ rendered)%string ;;
   ret ("<img src="
        ++ String ExecScript.quote
             (ExecScript.replaceAll ExecScript.quote "'" encoded
              ++ String ExecScript.quote
                   (" alt="
                    ++ String ExecScript.quote
                         ("Dynamic SVG content"
                          ++ String ExecScript.quote " />"))))%string)%js.

(** [dataString]. *)
Definition dataString (children : list jsx) : M string :=
  (images <- mapM imageOf children ;;
   ret (JS.join EmptyString images))%js.

(** The first effect of [ClickableDetail].  It returns at once while
    loading is awaited.  The closures just made are in no case among
    those of [clickHandlers], so that [setClickHandlers] is called unless
    there is no new handler at all.  An error leaves the effect before
    anything is kept. *)
Definition effect (isLoading waitUntilAllLoaded : bool) (children : jsx)
           (st : state) : M state :=
  if isLoading && waitUntilAllLoaded then ret st
  else
    (newClickHandlers <- buildClickHandlers children ;;
     markup <- dataString (toArray children) ;;
     ret {| clickHandlers := match handlers newClickHandlers with
                             | [] => clickHandlers st
                             | _ :: _ => newClickHandlers
                             end;
            content := markup |})%js.

End Effect.

(* ===================================================================== *)
(** * Further elements used in the examples *)
(* ===================================================================== *)

Module MoreExamples.

(** [<Ellipse cx cy rx ry onClick />]. *)
Definition Ellipse (cx cy rx ry : Z) (onClick : option callback) : jsx :=
  Element EllipseType
          {| Props.x := None; Props.y := None;
             Props.width := None; Props.height := None;
             Props.cx := Examples.num cx; Props.cy := Examples.num cy;
             Props.rx := Examples.num rx; Props.ry := Examples.num ry;
             Props.radius := None;
             Props.x1 := None; Props.y1 := None;
             Props.x2 := None; Props.y2 := None;
             Props.strokeWidth := None; Props.fontSize := None;
             Props.points := EmptyString; Props.onClick := onClick |}
          UndefinedLeaf.


(** A text without children, one of whose dimensions is missing. *)
Definition emptyText : jsx :=
  Element TextType
          (Examples.boxProps (Examples.num 0) (Examples.num 0)
                             (Examples.num 80) None (Examples.returning 1))
          UndefinedLeaf.

(** A [DynamicSVG] without callback anywhere. *)
Definition staticSVG : jsx :=
  Examples.DynamicSVG (Examples.num 50)
    [Examples.Rect 0 0 100 50 None; Examples.G [Examples.Rect 5 5 10 10 None]].

(** The registry of two handlers: a far rectangle and a near one. *)
Definition someRegistry : registry :=
  {| handlers :=
       [Examples.nestedHandlerFor
          (Examples.Rect 500 500 50 50 (Examples.returning 7));
        Examples.nestedHandlerFor
          (Examples.Rect 0 0 100 100 (Examples.returning 1))];
     heightUpToNow := JS.of_Z 0 |}.

(** A renderer that returns the same markup for every child, and an
    encoder that leaves its text as it is. *)
Definition renderAsName (child : jsx) : M string := ret "<svg/>"%string.

Definition encodeAsIs (text : string) : M string := ret text.

(** The markup of one image of that renderer. *)
Definition staticMarkup : string :=
  ("<img src="
   ++ String ExecScript.quote
        ("data:image/svg+xml;utf8,<svg/>"
         ++ String ExecScript.quote
              (" alt="
               ++ String ExecScript.quote
                    ("Dynamic SVG content"
                     ++ String ExecScript.quote " />"))))%string.

End MoreExamples.

(* ===================================================================== *)
(** * The dispatcher: first match and throwing callbacks *)
(* ===================================================================== *)

Section Dispatch.

Variable H : JS.number.
Variables x y : JS.number.

Lemma bind_ret_l (A B : Type) (a : A) (k : A -> M B) :
  bind (ret a) k = k a.
Proof.
  unfold bind, ret. destruct (k a) as [t r]. reflexivity.
Qed.

(** A handler whose test fails returns [false] and does nothing else. *)
Lemma runHandler_miss (hd : handler) :
  hitTest H hd x y = false -> runHandler H hd x y = ret false.
Proof.
  destruct hd as [child | childChild dims]; simpl; intros Hmiss;
    rewrite Hmiss; reflexivity.
Qed.

(** A handler whose test succeeds calls the callback of its element; it
    returns [true] when the callback returns. *)
Lemma runHandler_hit_returns (hd : handler) (cb : callback) :
  hitTest H hd x y = true ->
  onClickOf (handlerElement hd) = Some cb ->
  cb_throws cb = None ->
  runHandler H hd x y = ([Invoked (cb_id cb) x y], Normal true).
Proof.
  destruct hd as [child | childChild dims]; simpl; intros Hhit Hcb Hret;
    rewrite Hhit; unfold callOnClick, call; rewrite Hcb, Hret; reflexivity.
Qed.

(** Whatever its callback does, a handler whose test succeeds calls it
    first. *)
Lemma runHandler_hit_first (hd : handler) (cb : callback) :
  hitTest H hd x y = true ->
  onClickOf (handlerElement hd) = Some cb ->
  exists rest, trace (runHandler H hd x y) = Invoked (cb_id cb) x y :: rest.
Proof.
  destruct hd as [child | childChild dims]; simpl; intros Hhit Hcb;
    rewrite Hhit; unfold callOnClick, call; rewrite Hcb;
    destruct (cb_throws cb) as [[| | b | n | s | message] |]; simpl; eauto.
Qed.

(** The handlers whose test fails are passed over. *)
Lemma dispatchLoop_skip (pre rest : list handler) :
  Forall (fun hd => hitTest H hd x y = false) pre ->
  dispatchLoop H (pre ++ rest) x y = dispatchLoop H rest x y.
Proof.
  induction 1 as [| hd pre Hmiss _ IH]; [reflexivity |].
  simpl. rewrite (runHandler_miss _ Hmiss), bind_ret_l. exact IH.
Qed.

Lemma trace_bind (A B : Type) (m : M A) (k : A -> M B) :
  exists rest, trace (bind m k) = trace m ++ rest.
Proof.
  destruct m as [t [a | e]]; simpl.
  - destruct (k a) as [t' r]. simpl. eauto.
  - exists []. now rewrite app_nil_r.
Qed.

(** When no test succeeds, nothing is called. *)
Lemma dispatchLoop_no_match (hs : list handler) :
  Forall (fun hd => hitTest H hd x y = false) hs ->
  dispatchLoop H hs x y = ret tt.
Proof.
  intros Hmiss. rewrite <- (app_nil_r hs).
  now rewrite (dispatchLoop_skip _ Hmiss).
Qed.

(** The handler of a top-level child has no [try]: what its callback
    throws leaves the loop. *)
Lemma dispatchLoop_top_level_throws
      (child : jsx) (cb : callback) (error : jsvalue) (rest : list handler) :
  topLevelTest H child x y = true ->
  onClickOf child = Some cb ->
  cb_throws cb = Some error ->
  dispatchLoop H (TopLevelHandler child :: rest) x y
  = ([Invoked (cb_id cb) x y], Throw error).
Proof.
  intros Hhit Hcb Hthrows. simpl. rewrite Hhit.
  unfold callOnClick, call. rewrite Hcb, Hthrows. reflexivity.
Qed.

(** ** C1 *)

(** C1, as amended.  The dispatcher scans the handlers in the order of
    the registry: the handlers whose test fails call nothing, and the
    first region whose test succeeds receives the click, at the clicked
    coordinate, before anything else happens.  When the callback of that
    region returns, the scan stops there: that callback is the only one
    called, whatever regions follow.  In particular, for two overlapping
    regions declared A then B, a point inside both is dispatched to A
    alone when the callback of A returns. *)
Theorem C1_first_match_wins
        (pre post : list handler) (hd : handler) (cb : callback) :
  Forall (fun hd' => hitTest H hd' x y = false) pre ->
  hitTest H hd x y = true ->
  onClickOf (handlerElement hd) = Some cb ->
  (exists rest,
      trace (dispatchLoop H (pre ++ hd :: post) x y)
      = Invoked (cb_id cb) x y :: rest)
  /\ (cb_throws cb = None ->
      dispatchLoop H (pre ++ hd :: post) x y
      = ([Invoked (cb_id cb) x y], Normal tt)).
Proof.
  intros Hpre Hhit Hcb. rewrite (dispatchLoop_skip _ Hpre). split.
  - simpl.
    destruct (runHandler_hit_first _ Hhit Hcb) as [rest Hrest].
    destruct (trace_bind (runHandler H hd x y)
                (fun handled : bool =>
                   if handled then ret tt else dispatchLoop H post x y))
      as [rest' Hrest'].
    rewrite Hrest'. rewrite Hrest. simpl. eauto.
  - intros Hret. simpl.
    rewrite (runHandler_hit_returns _ Hhit Hcb Hret). reflexivity.
Qed.

(** ** C2 *)

(** C2, as amended.  When the click lies inside a region registered for
    an element found below a top-level child, and the callback of that
    region throws an exception that has a message (an [Error], or any
    other value than [null] and [undefined], whose property [message] is
    read), the exception is caught and its message logged; the handler
    then reports the click as not handled, and the dispatcher goes on with
    the later regions of the registry exactly as it would have without
    that region. *)
Theorem C2_throwing_handler_falls_through
        (childChild : jsx) (dims : dimensions) (cb : callback)
        (error message : jsvalue) (rest : list handler) :
  nestedTest childChild dims x y = true ->
  onClickOf childChild = Some cb ->
  cb_throws cb = Some error ->
  messageOf error = ret message ->
  runHandler H (NestedHandler childChild dims) x y
  = ([Invoked (cb_id cb) x y; Logged message], Normal false)
  /\ dispatchLoop H (NestedHandler childChild dims :: rest) x y
     = (Invoked (cb_id cb) x y :: Logged message
          :: trace (dispatchLoop H rest x y),
        snd (dispatchLoop H rest x y)).
Proof.
  intros Hhit Hcb Hthrows Hmessage.
  assert (Hrun : runHandler H (NestedHandler childChild dims) x y
                 = ([Invoked (cb_id cb) x y; Logged message], Normal false)).
  { simpl. rewrite Hhit. unfold callOnClick, call.
    rewrite Hcb, Hthrows. cbn. rewrite Hmessage. reflexivity. }
  split; [exact Hrun |].
  change (dispatchLoop H (NestedHandler childChild dims :: rest) x y)
    with (bind (runHandler H (NestedHandler childChild dims) x y)
               (fun handled : bool =>
                  if handled then ret tt else dispatchLoop H rest x y)).
  rewrite Hrun. unfold bind, trace.
  destruct (dispatchLoop H rest x y) as [t r]. reflexivity.
Qed.

End Dispatch.

(** C1 fails as stated: of two overlapping rectangles declared A then B
    under one [DynamicSVG], a click at (50, 50) lies inside both; the
    callback of A throws, and the dispatcher calls the callback of A and
    then the callback of B. *)
Lemma C1_counterexample :
  exists reg,
    buildClickHandlers Examples.overlapping = ([], Normal reg)
    /\ Forall (fun hd => hitTest (heightUpToNow reg) hd
                                 (Examples.at_ 50) (Examples.at_ 50) = true)
              (handlers reg)
    /\ invocations (clickHandler reg "50,50") = [1; 2]%nat
    /\ ~ (List.length (invocations (clickHandler reg "50,50")) <= 1)%nat.
Proof.
  eexists. split; [vm_compute; reflexivity |]. simpl handlers.
  split; [repeat constructor |].
  split; [vm_compute; reflexivity |].
  vm_compute. intros Hle. inversion Hle as [| n Hle']. inversion Hle'.
Qed.

Lemma C1_first_match_wins_witness :
  let far := Examples.nestedHandlerFor (Examples.Rect 500 500 50 50 (Examples.returning 7)) in
  let a := Examples.nestedHandlerFor (Examples.Rect 0 0 100 100 (Examples.returning 1)) in
  let b := Examples.nestedHandlerFor (Examples.Rect 0 0 100 100 (Examples.returning 2)) in
  hitTest (Examples.at_ 0) far (Examples.at_ 50) (Examples.at_ 50) = false
  /\ hitTest (Examples.at_ 0) a (Examples.at_ 50) (Examples.at_ 50) = true
  /\ hitTest (Examples.at_ 0) b (Examples.at_ 50) (Examples.at_ 50) = true
  /\ dispatchLoop (Examples.at_ 0) ([far] ++ a :: [b])
                  (Examples.at_ 50) (Examples.at_ 50)
     = ([Invoked 1 (Examples.at_ 50) (Examples.at_ 50)], Normal tt).
Proof.
  intros far a b.
  split; [reflexivity |]. split; [reflexivity |]. split; [reflexivity |].
  refine (proj2 (@C1_first_match_wins (Examples.at_ 0) (Examples.at_ 50)
                   (Examples.at_ 50) [far] [b] a
                   {| cb_id := 1; cb_throws := None |} _ _ _) _).
  - constructor; [reflexivity | constructor].
  - reflexivity.
  - reflexivity.
  - reflexivity.
Defined.

(** C2 fails as stated: three rectangles overlap at (50, 50) and the
    callback of the first throws; the message is logged, and the click is
    then given to the second rectangle, whose callback is called. *)
Lemma C2_counterexample :
  exists reg,
    buildClickHandlers Examples.stacked = ([], Normal reg)
    /\ clickHandler reg "50,50"
       = ([Invoked 1 (Examples.at_ 50) (Examples.at_ 50);
           Logged (JString "boom");
           Invoked 2 (Examples.at_ 50) (Examples.at_ 50)], Normal tt).
Proof.
  eexists. split.
  - vm_compute. reflexivity.
  - vm_compute. reflexivity.
Qed.

Lemma C2_throwing_handler_falls_through_witness :
  let a := Examples.Rect 0 0 200 200 (Examples.throwing 1 "boom") in
  let dims := {| w := Examples.num 200; h := Examples.num 200 |} in
  let b := Examples.nestedHandlerFor (Examples.Rect 20 20 100 100 (Examples.returning 2)) in
  nestedTest a dims (Examples.at_ 50) (Examples.at_ 50) = true
  /\ runHandler (Examples.at_ 0) (NestedHandler a dims)
                (Examples.at_ 50) (Examples.at_ 50)
     = ([Invoked 1 (Examples.at_ 50) (Examples.at_ 50);
         Logged (JString "boom")],
        Normal false)
  /\ dispatchLoop (Examples.at_ 0) [NestedHandler a dims; b]
                  (Examples.at_ 50) (Examples.at_ 50)
     = ([Invoked 1 (Examples.at_ 50) (Examples.at_ 50);
         Logged (JString "boom");
         Invoked 2 (Examples.at_ 50) (Examples.at_ 50)], Normal tt).
Proof.
  intros a dims b.
  split; [reflexivity |].
  destruct (@C2_throwing_handler_falls_through (Examples.at_ 0)
              (Examples.at_ 50) (Examples.at_ 50) a dims
              {| cb_id := 1; cb_throws := Some (JError "boom") |}
              (JError "boom") (JString "boom") [b]
              eq_refl eq_refl eq_refl eq_refl) as [Hrun Hloop].
  split; [exact Hrun | exact Hloop].
Defined.

(* ===================================================================== *)
(** * Facts on numbers: NaN and the infinities *)
(* ===================================================================== *)

Module JSFacts.

Lemma add_NaN_l a : JS.add JS.NaN a = JS.NaN.
Proof. reflexivity. Qed.

Lemma add_NaN_r a : JS.add a JS.NaN = JS.NaN.
Proof. destruct a; reflexivity. Qed.

Lemma sub_NaN_l a : JS.sub JS.NaN a = JS.NaN.
Proof. reflexivity. Qed.

Lemma sub_NaN_r a : JS.sub a JS.NaN = JS.NaN.
Proof. destruct a; reflexivity. Qed.

Lemma mul_NaN_l a : JS.mul JS.NaN a = JS.NaN.
Proof. reflexivity. Qed.

Lemma mul_NaN_r a : JS.mul a JS.NaN = JS.NaN.
Proof. destruct a; reflexivity. Qed.

Lemma div_NaN_l a : JS.div JS.NaN a = JS.NaN.
Proof. reflexivity. Qed.

Lemma div_NaN_r a : JS.div a JS.NaN = JS.NaN.
Proof. destruct a; reflexivity. Qed.

Lemma sqrt_NaN : JS.Math.sqrt JS.NaN = JS.NaN.
Proof. reflexivity. Qed.

Lemma abs_NaN : JS.Math.abs JS.NaN = JS.NaN.
Proof. reflexivity. Qed.

Lemma lt_NaN_l a : JS.lt JS.NaN a = false.
Proof. reflexivity. Qed.

Lemma lt_NaN_r a : JS.lt a JS.NaN = false.
Proof. destruct a; reflexivity. Qed.

Lemma gt_NaN_l a : JS.gt JS.NaN a = false.
Proof. destruct a; reflexivity. Qed.

Lemma gt_NaN_r a : JS.gt a JS.NaN = false.
Proof. reflexivity. Qed.

Lemma le_NaN_l a : JS.le JS.NaN a = false.
Proof. reflexivity. Qed.

Lemma le_NaN_r a : JS.le a JS.NaN = false.
Proof. destruct a; reflexivity. Qed.

Lemma ge_NaN_l a : JS.ge JS.NaN a = false.
Proof. destruct a; reflexivity. Qed.

Lemma ge_NaN_r a : JS.ge a JS.NaN = false.
Proof. reflexivity. Qed.

Lemma isNaN_eq a : JS.isNaN a = true -> a = JS.NaN.
Proof. destruct a; simpl; intros Hnan; try discriminate; reflexivity. Qed.

(** Two numbers that are equal are the same, or are the two zeros. *)
Lemma eqb_cases a b :
  JS.eqb a b = true ->
  a = b \/ exists s s', a = S754_zero s /\ b = S754_zero s'.
Proof.
  unfold JS.eqb, SFeqb.
  destruct a as [sa | sa | | sa ma ea], b as [sb | sb | | sb mb eb];
    simpl; try discriminate;
    try (destruct sa; discriminate);
    try (destruct sb; discriminate);
    try (intros _; right; eauto; fail);
    try (destruct sa, sb; intros Heq; try discriminate; left; reflexivity).
  intros Heq. left.
  assert (Hem : ea = eb /\ ma = mb).
  { destruct sa, sb; try discriminate;
      destruct (Z.compare_spec ea eb) as [-> | Hlt | Hgt];
      try discriminate;
      (split; [reflexivity |]; apply Pos.compare_eq;
       unfold Pos.compare;
       destruct (Pos.compare_cont Eq ma mb); simpl in Heq;
       try discriminate; reflexivity). }
  destruct Hem as [-> ->].
  destruct sa, sb; try discriminate; reflexivity.
Qed.

(** [d - d] is [+0], or NaN when [d] is not finite. *)
Lemma sub_diag d :
  JS.sub d d = S754_zero false \/ JS.sub d d = JS.NaN.
Proof.
  destruct d as [s | s | | s m e].
  - left. destruct s; reflexivity.
  - right. destruct s; reflexivity.
  - right. reflexivity.
  - left. unfold JS.sub, SFsub. rewrite Z.sub_diag. reflexivity.
Qed.

Lemma div_by_zero_nonFinite a : JS.nonFinite (JS.div a (S754_zero false)).
Proof. destruct a; reflexivity. Qed.

Lemma mul_nonFinite_l a b : JS.nonFinite a -> JS.nonFinite (JS.mul a b).
Proof.
  destruct a; try discriminate; intros _; destruct b; reflexivity.
Qed.

Lemma add_nonFinite a b :
  JS.nonFinite a -> JS.nonFinite b -> JS.nonFinite (JS.add a b).
Proof.
  destruct a as [| sa | |]; try discriminate;
    destruct b as [| sb | |]; try discriminate; intros _ _;
    try reflexivity.
  destruct sa, sb; reflexivity.
Qed.

Lemma sub_nonFinite_r a b : JS.nonFinite b -> JS.nonFinite (JS.sub a b).
Proof.
  destruct b as [| sb | |]; try discriminate; intros _.
  - destruct a as [| sa | |]; try reflexivity. destruct sa, sb; reflexivity.
  - destruct a; reflexivity.
Qed.

(** Nothing is above the absolute value of a number that is not
    finite. *)
Lemma abs_nonFinite_not_lt a b :
  JS.nonFinite a -> JS.lt (JS.Math.abs a) b = false.
Proof.
  destruct a as [| sa | |]; try discriminate; intros _.
  - destruct b as [| [|] | |]; reflexivity.
  - reflexivity.
Qed.

End JSFacts.

Create Rewrite HintDb nan.

#[export] Hint Rewrite
  JSFacts.add_NaN_l JSFacts.add_NaN_r JSFacts.sub_NaN_l JSFacts.sub_NaN_r
  JSFacts.mul_NaN_l JSFacts.mul_NaN_r JSFacts.div_NaN_l JSFacts.div_NaN_r
  JSFacts.sqrt_NaN JSFacts.abs_NaN
  JSFacts.lt_NaN_l JSFacts.lt_NaN_r JSFacts.gt_NaN_l JSFacts.gt_NaN_r
  JSFacts.le_NaN_l JSFacts.le_NaN_r JSFacts.ge_NaN_l JSFacts.ge_NaN_r
  andb_false_r andb_false_l : nan.

(* ===================================================================== *)
(** * Malformed payloads *)
(* ===================================================================== *)

(** A payload that does not split into two components is dropped before
    any handler runs. *)
Lemma clickHandler_other_count (clickHandlers : registry) (output : string) :
  List.length (JS.split ","%char output) <> 2%nat ->
  clickHandler clickHandlers output = ret tt.
Proof.
  intros Hcount. unfold clickHandler.
  destruct (Nat.eqb_spec (List.length (JS.split ","%char output)) 2);
    [contradiction | reflexivity].
Qed.

Lemma countIntersections_none b ray edges n :
  (forall e, Polygon.counted b ray e = false) ->
  Polygon.countIntersections b ray edges n = n.
Proof.
  intros Hnone. revert n.
  induction edges as [| e edges IH]; intros n; simpl; [reflexivity |].
  rewrite Hnone. apply IH.
Qed.

Lemma counted_NaN_slope b ray e :
  Polygon.slope ray = JS.NaN -> Polygon.counted b ray e = false.
Proof.
  intros Hslope. unfold Polygon.counted, Polygon.x0.
  rewrite Hslope. autorewrite with nan. reflexivity.
Qed.

(** The polygon test is false at a coordinate that is NaN. *)
Lemma polygon_NaN polygon x y :
  JS.isNaN x = true \/ JS.isNaN y = true ->
  Polygon.doesContainPoint polygon x y = false.
Proof.
  intros Hnan.
  unfold Polygon.doesContainPoint, Polygon.doesContainPointOf.
  destruct (Polygon.outsideBox _ x y); [reflexivity |].
  unfold Polygon.rayCasting.
  rewrite countIntersections_none; [reflexivity |].
  intros e. apply counted_NaN_slope. unfold Polygon.slope, Polygon.rayOf.
  simpl.
  destruct Hnan as [Hx | Hy];
    [rewrite (JSFacts.isNaN_eq _ Hx) | rewrite (JSFacts.isNaN_eq _ Hy)];
    autorewrite with nan; reflexivity.
Qed.

(** No handler of an element found below a top-level child passes its
    test at a coordinate that is NaN: a payload one of whose components
    is no number reaches none of their callbacks. *)
Lemma nestedTest_NaN childChild dims x y :
  JS.isNaN x = true \/ JS.isNaN y = true ->
  nestedTest childChild dims x y = false.
Proof.
  intros Hnan. unfold nestedTest.
  destruct (hasType childChild LineType).
  { unfold Line.doesContainPoint, Line.line_eq.
    destruct Hnan as [Hx | Hy];
      [rewrite (JSFacts.isNaN_eq _ Hx) | rewrite (JSFacts.isNaN_eq _ Hy)];
      autorewrite with nan; reflexivity. }
  destruct (hasType childChild CircleType).
  { unfold Circle.doesContainPoint, JS.Math.pow2.
    destruct Hnan as [Hx | Hy];
      [rewrite (JSFacts.isNaN_eq _ Hx) | rewrite (JSFacts.isNaN_eq _ Hy)];
      autorewrite with nan; reflexivity. }
  destruct (hasType childChild EllipseType).
  { unfold Ellipse.doesContainPoint, JS.Math.pow2.
    destruct Hnan as [Hx | Hy];
      [rewrite (JSFacts.isNaN_eq _ Hx) | rewrite (JSFacts.isNaN_eq _ Hy)];
      autorewrite with nan; reflexivity. }
  destruct (hasType childChild PolygonType).
  { now apply polygon_NaN. }
  destruct (hasType childChild ToggleType).
  { unfold Toggle.doesContainPoint.
    destruct Hnan as [Hx | Hy];
      [rewrite (JSFacts.isNaN_eq _ Hx) | rewrite (JSFacts.isNaN_eq _ Hy)];
      autorewrite with nan; reflexivity. }
  unfold boxTest.
  destruct Hnan as [Hx | Hy];
    [rewrite (JSFacts.isNaN_eq _ Hx) | rewrite (JSFacts.isNaN_eq _ Hy)];
    autorewrite with nan; reflexivity.
Qed.

(** A registry that holds handlers of nested elements only calls nothing
    at a coordinate that is NaN. *)
Lemma dispatchLoop_nested_NaN H hs x y :
  Forall (fun hd => exists c d, hd = NestedHandler c d) hs ->
  JS.isNaN x = true \/ JS.isNaN y = true ->
  dispatchLoop H hs x y = ret tt.
Proof.
  intros Hnested Hnan.
  rewrite <- (app_nil_r hs). rewrite dispatchLoop_skip; [reflexivity |].
  induction Hnested as [| hd hs [c [d ->]] _ IH]; constructor; [| exact IH].
  simpl. now apply nestedTest_NaN.
Qed.

(** ** C3 *)

(** C3 does not hold of the code.  The payload "abc,5" has two components,
    so it is not dropped: it is dispatched at (NaN, 5).  The handler of a
    clickable element that is itself a top-level child joins its four
    comparisons by "or", and the last of them, on y alone, succeeds: the
    callback of a top-level rectangle at (0, 0) of size 100 by 100 is
    called with (NaN, 5).  (A payload of three components is dropped, and
    no nested element matches NaN: [clickHandler_other_count],
    [dispatchLoop_nested_NaN].) *)
Theorem C3_malformed_payload_reaches_top_level :
  exists reg,
    buildClickHandlers Examples.topLevelRect = ([], Normal reg)
    /\ clickHandler reg "abc,5"
       = ([Invoked 1 JS.NaN (Examples.at_ 5)], Normal tt)
    /\ clickHandler reg "1,2,3" = ([], Normal tt).
Proof.
  eexists. split; [vm_compute; reflexivity |].
  split; vm_compute; reflexivity.
Qed.

(* ===================================================================== *)
(** * Stacking offset and the box of a generic element *)
(* ===================================================================== *)

(** ** C4 *)

(** C4 does not hold of the code.  The handler of an element found below
    a top-level child never reads [heightUpToNow]: it runs the same
    whatever that variable holds.  With two top-level siblings of heights
    50 and 100, a rectangle of the second sibling at local (0, 10) of size
    100 by 40 is tested at its local y: a click at (50, 30) calls its
    callback, and a click at (50, 80), inside the rectangle once moved
    down by 50, calls nothing. *)
Theorem C4_descendants_are_not_offset :
  (forall H H' childChild dims x y,
      runHandler H (NestedHandler childChild dims) x y
      = runHandler H' (NestedHandler childChild dims) x y)
  /\ exists reg,
      buildClickHandlers Examples.twoSiblings = ([], Normal reg)
      /\ heightUpToNow reg = Examples.at_ 150
      /\ clickHandler reg "50,30"
         = ([Invoked 1 (Examples.at_ 50) (Examples.at_ 30)], Normal tt)
      /\ clickHandler reg "50,80" = ([], Normal tt).
Proof.
  split; [reflexivity |].
  eexists. split; [vm_compute; reflexivity |].
  repeat split; vm_compute; reflexivity.
Qed.

(** The box of a generic element found below a top-level child: the test
    succeeds exactly when x is strictly between [15 + x] and
    [x + w - 15] and y strictly between [15 + y] and [y + h]. *)
Lemma boxTest_open_intervals childChild dims px py :
  let p := propsOf childChild in
  boxTest childChild dims px py = true <->
  JS.lt (JS.add fifteen (JS.toNumber (Props.x p))) px = true
  /\ JS.lt px (JS.sub (JS.add (JS.toNumber (Props.x p)) (JS.toNumber (w dims)))
                      fifteen) = true
  /\ JS.lt (JS.add fifteen (JS.toNumber (Props.y p))) py = true
  /\ JS.lt py (JS.add (JS.toNumber (Props.y p)) (JS.toNumber (h dims))) = true.
Proof.
  unfold boxTest, JS.gt. simpl.
  rewrite !andb_true_iff. tauto.
Qed.

(** ** C5 *)

(** C5 does not hold of the code for an element that is itself a
    top-level child.  The handler of such an element joins the
    comparisons [x > left], [x < left + width], [y > top] and
    [y < top + height] by "or" and uses no margin: for a top-level
    rectangle at (0, 0) of size 100 by 100, the click at (500, 500), far
    outside the box, passes the test and calls the callback.  (For an
    element found below a top-level child the test is the one of the
    claim: [boxTest_open_intervals].) *)
Theorem C5_top_level_box_is_not_tested :
  exists reg,
    buildClickHandlers Examples.topLevelRect = ([], Normal reg)
    /\ handlers reg = [TopLevelHandler (Examples.Rect 0 0 100 100 (Examples.returning 1))]
    /\ hitTest (heightUpToNow reg) (TopLevelHandler (Examples.Rect 0 0 100 100 (Examples.returning 1)))
               (Examples.at_ 500) (Examples.at_ 500) = true
    /\ clickHandler reg "500,500"
       = ([Invoked 1 (Examples.at_ 500) (Examples.at_ 500)], Normal tt).
Proof.
  eexists. split; [vm_compute; reflexivity |].
  repeat split; vm_compute; reflexivity.
Qed.

(* ===================================================================== *)
(** * The polygon and the line *)
(* ===================================================================== *)

(** The loop counts the edges that [counted] lets through. *)
Lemma countIntersections_filter b ray edges n :
  Polygon.countIntersections b ray edges n
  = (n + List.length (filter (Polygon.counted b ray) edges))%nat.
Proof.
  revert n. induction edges as [| e edges IH]; intros n; simpl.
  - now rewrite Nat.add_0_r.
  - rewrite IH. destruct (Polygon.counted b ray e); simpl; lia.
Qed.

(** A point outside the bounding box is rejected before any ray is
    cast. *)
Lemma polygon_outside_box polygon x y :
  Polygon.outsideBox
    (Polygon.boundingBox (Polygon.parsePoints (Props.points (propsOf polygon))))
    x y = true ->
  Polygon.doesContainPoint polygon x y = false.
Proof.
  intros Hout. unfold Polygon.doesContainPoint, Polygon.doesContainPointOf.
  now rewrite Hout.
Qed.

(** Inside the bounding box the answer is the parity of the number of
    edges counted. *)
Lemma polygon_parity polygon x y :
  let points := Polygon.parsePoints (Props.points (propsOf polygon)) in
  let b := Polygon.boundingBox points in
  Polygon.outsideBox b x y = false ->
  Polygon.doesContainPoint polygon x y
  = Nat.odd (List.length (filter (Polygon.counted b (Polygon.rayOf points x y))
                                 (Polygon.edgesOf points))).
Proof.
  intros points b Hin. unfold Polygon.doesContainPoint, Polygon.doesContainPointOf.
  fold points. fold b. rewrite Hin. unfold Polygon.rayCasting.
  fold b. now rewrite countIntersections_filter.
Qed.

(** ** C7 *)

(** C7 does not hold of the code.  The loop counts an intersection that is
    finite, within the bounds of the ray and within the bounding box of
    the polygon; it does not test that the intersection lies within the
    bounding segment of the edge, which the comment of that loop
    announces.  For the L-shaped hexagon "0,0 100,0 100,100 50,100 50,50
    0,50" and the query point (105, 105), which is inside the bounding
    box, the line of the fifth edge (from (65, 65) to (15, 65) once
    shifted) meets the ray beyond the edge and is counted: the count is
    2 and the answer is [false], where the count restricted to the edges'
    own segments is 1 and the answer [true]. *)
Theorem C7_intersection_beyond_edge_is_counted :
  let points := Polygon.parsePoints (Props.points (propsOf Examples.hexagonL)) in
  let b := Polygon.boundingBox points in
  let ray := Polygon.rayOf points (Examples.at_ 105) (Examples.at_ 105) in
  Polygon.outsideBox b (Examples.at_ 105) (Examples.at_ 105) = false
  /\ (exists e, nth_error (Polygon.edgesOf points) 4 = Some e
                /\ Polygon.counted b ray e = true
                /\ PolygonWithinEdge.withinEdge ray e = false)
  /\ List.length (filter (Polygon.counted b ray) (Polygon.edgesOf points)) = 2%nat
  /\ List.length (filter (PolygonWithinEdge.counted b ray)
                         (Polygon.edgesOf points)) = 1%nat
  /\ Polygon.doesContainPoint Examples.hexagonL
       (Examples.at_ 105) (Examples.at_ 105) = false
  /\ PolygonWithinEdge.doesContainPoint Examples.hexagonL
       (Examples.at_ 105) (Examples.at_ 105) = true.
Proof.
  intros points b ray.
  split; [vm_compute; reflexivity |].
  split.
  { eexists. split; [vm_compute; reflexivity |].
    repeat split; vm_compute; reflexivity. }
  repeat split; vm_compute; reflexivity.
Qed.

(** The slope of a segment whose ends have the same x is not finite. *)
Lemma line_m_vertical line :
  JS.eqb (JS.toNumber (Props.x1 (propsOf line)))
         (JS.toNumber (Props.x2 (propsOf line))) = true ->
  JS.nonFinite (Line.line_m line).
Proof.
  intros Hvertical. unfold Line.line_m.
  assert (Hsame : JS.add (JS.toNumber (Props.x1 (propsOf line))) fifteen
                  = JS.add (JS.toNumber (Props.x2 (propsOf line))) fifteen).
  { destruct (JSFacts.eqb_cases _ _ Hvertical) as [-> | [s [s' [-> ->]]]];
      reflexivity. }
  rewrite Hsame.
  destruct (JSFacts.sub_diag
              (JS.add (JS.toNumber (Props.x2 (propsOf line))) fifteen))
    as [-> | ->].
  - apply JSFacts.div_by_zero_nonFinite.
  - now rewrite JSFacts.div_NaN_r.
Qed.

(** ** C9 *)

(** C9, as amended.  The hit tests are functions to the booleans: they
    return [true] or [false] for every shape and every query point, and
    raise nothing.  A vertical segment, whose slope is not finite,
    contains no point: its test is [false] everywhere.  In a polygon, an
    edge whose intersection with the ray has a coordinate that is not
    finite is not counted as a crossing; the answer for the polygon is
    then the parity of the crossings of its other edges. *)
Theorem C9_degenerate_geometry_is_no_hit :
  (forall (line : jsx) (x y : JS.number),
      JS.eqb (JS.toNumber (Props.x1 (propsOf line)))
             (JS.toNumber (Props.x2 (propsOf line))) = true ->
      Line.doesContainPoint line x y = false)
  /\ (forall (b : Polygon.box) (ray e : Polygon.edge),
         JS.nonFinite (Polygon.x0 ray e) \/ JS.nonFinite (Polygon.y0 ray e) ->
         Polygon.counted b ray e = false).
Proof.
  split.
  - intros line x y Hvertical.
    unfold Line.doesContainPoint, Line.line_eq.
    apply JSFacts.abs_nonFinite_not_lt, JSFacts.sub_nonFinite_r,
      JSFacts.add_nonFinite.
    + apply JSFacts.mul_nonFinite_l, line_m_vertical, Hvertical.
    + unfold Line.line_b.
      apply JSFacts.sub_nonFinite_r, JSFacts.mul_nonFinite_l,
        line_m_vertical, Hvertical.
  - intros b ray e Hnon. unfold Polygon.counted.
    destruct Hnon as [Hx | Hy].
    + rewrite Hx. reflexivity.
    + rewrite Hy. now rewrite andb_false_r.
Qed.

Lemma C9_degenerate_geometry_is_no_hit_witness :
  let line := Examples.Line 10 0 10 100 5 (Examples.returning 1) in
  JS.eqb (JS.toNumber (Props.x1 (propsOf line)))
         (JS.toNumber (Props.x2 (propsOf line))) = true
  /\ Line.doesContainPoint line (Examples.at_ 25) (Examples.at_ 50) = false.
Proof.
  intros line. split; [reflexivity |].
  exact (proj1 C9_degenerate_geometry_is_no_hit line
               (Examples.at_ 25) (Examples.at_ 50) eq_refl).
Defined.

(** C9 fails as stated: the square "0,0 100,0 100,100 0,100" has two
    vertical edges, whose intersections with the ray are NaN, and still
    its test is [true] at (50, 50). *)
Lemma C9_counterexample :
  let points := Polygon.parsePoints (Props.points (propsOf Examples.square)) in
  let ray := Polygon.rayOf points (Examples.at_ 50) (Examples.at_ 50) in
  (exists e, nth_error (Polygon.edgesOf points) 1 = Some e
             /\ Polygon.x1 e = Polygon.x2 e
             /\ Polygon.x0 ray e = JS.NaN
             /\ Polygon.y0 ray e = JS.NaN)
  /\ Polygon.doesContainPoint Examples.square
       (Examples.at_ 50) (Examples.at_ 50) = true.
Proof.
  intros points ray. split.
  - eexists. split; [vm_compute; reflexivity |].
    repeat split; vm_compute; reflexivity.
  - vm_compute. reflexivity.
Qed.

(* ===================================================================== *)
(** * Computations that only return or raise *)
(* ===================================================================== *)

Lemma bind_ret_eq (A B : Type) (m : M A) (a : A) (k : A -> M B) :
  m = ret a -> bind m k = k a.
Proof. intros ->. apply bind_ret_l. Qed.

Lemma bind_throw_eq (A B : Type) (m : M A) (e : string) (k : A -> M B) :
  m = throw e -> bind m k = throw e.
Proof. intros ->. reflexivity. Qed.

Lemma quiet_ret (A : Type) (a : A) : quiet (ret a).
Proof. left. exists a. reflexivity. Qed.

Lemma quiet_throw (A : Type) (message : string) : quiet (@throw A message).
Proof. right. exists message. reflexivity. Qed.

Lemma quiet_bind (A B : Type) (m : M A) (k : A -> M B) :
  quiet m -> (forall a, quiet (k a)) -> quiet (bind m k).
Proof.
  intros [[a ->] | [message ->]] Hk.
  - rewrite bind_ret_l. apply Hk.
  - right. exists message. reflexivity.
Qed.

Lemma quiet_silent (A : Type) (m : M A) : quiet m -> trace m = [].
Proof. intros [[a ->] | [message ->]]; reflexivity. Qed.

(** What raises first decides. *)
Lemma bind_raises (A B : Type) (m : M A) (k : A -> M B) :
  (exists message, m = throw message) ->
  exists message, bind m k = throw message.
Proof. intros [message ->]. exists message. reflexivity. Qed.

Lemma bind_raises_later (A B : Type) (m : M A) (k : A -> M B) :
  quiet m ->
  (forall a, m = ret a -> exists message, k a = throw message) ->
  exists message, bind m k = throw message.
Proof.
  intros [[a Hm] | Hm] Hk.
  - rewrite Hm, bind_ret_l. now apply Hk.
  - now apply bind_raises.
Qed.

(* ===================================================================== *)
(** * The traversal *)
(* ===================================================================== *)

(** Induction on a tree along the children that the traversal enters: the
    only child of an element, or the items of its array of children. *)
Lemma jsx_children_ind (P : jsx -> Prop) :
  (forall t p children,
      Forall P (toArray children) -> P (Element t p children)) ->
  (forall node, typeOf node = None -> P node) ->
  forall node, P node.
Proof.
  intros HElement HOther.
  fix IH 1. intros node.
  destruct node as [t p children | s | n text | b | | | items];
    try (apply HOther; reflexivity).
  apply HElement.
  destruct (isArray children) eqn:Harray.
  - destruct children as [t' p' c' | s | n text | b | | | items];
      try discriminate Harray.
    clear Harray. cbn [toArray].
    induction items as [| item items IHitems]; constructor.
    + apply IH.
    + exact IHitems.
  - replace (toArray children) with [children]
      by (destruct children; try discriminate Harray; reflexivity).
    constructor; [apply IH | constructor].
Qed.

Lemma flatMapM_cons (A B : Type) (f : A -> M (list B)) item rest :
  flatMapM f (item :: rest)
  = (found <- f item ;;
     found' <- flatMapM f rest ;;
     ret (found ++ found'))%js.
Proof. reflexivity. Qed.

Lemma flatMapM_single (A B : Type) (f : A -> M (list B)) item :
  flatMapM f [item] = f item.
Proof.
  rewrite flatMapM_cons.
  change (flatMapM f []) with (@ret (list B) []).
  destruct (f item) as [t [found | e]]; cbn; [| reflexivity].
  now rewrite !app_nil_r.
Qed.

(** [getChildrenRecursive] on an element, as the source writes it: over
    [Array.isArray(children) ? children : [children]]. *)
Lemma getChildrenRecursive_element t p children :
  getChildrenRecursive (Element t p children)
  = if truthyChildren children then
      (below <- flatMapM getChildrenRecursive (toArray children) ;;
       ret (Element t p children :: below))%js
    else ret [Element t p children].
Proof.
  cbn [getChildrenRecursive].
  destruct (truthyChildren children); [| reflexivity].
  destruct children; cbn [toArray]; rewrite ?flatMapM_single; reflexivity.
Qed.

Lemma visited_element t p children :
  visited (Element t p children)
  = if truthyChildren children then
      Element t p children :: flat_map visited (toArray children)
    else [Element t p children].
Proof.
  cbn [visited]. destruct (truthyChildren children); [| reflexivity].
  destruct children; cbn [toArray flat_map]; rewrite ?app_nil_r; reflexivity.
Qed.

Lemma depthFirst_toArray children :
  depthFirst children = flat_map depthFirst (toArray children).
Proof.
  destruct children; cbn [toArray flat_map depthFirst]; rewrite ?app_nil_r;
    reflexivity.
Qed.

Lemma flatMapM_quiet (A B : Type) (f : A -> M (list B)) items :
  Forall (fun item => quiet (f item)) items -> quiet (flatMapM f items).
Proof.
  induction 1 as [| item items Hitem _ IH]; [apply quiet_ret |].
  rewrite flatMapM_cons.
  apply quiet_bind; [exact Hitem | intros found].
  apply quiet_bind; [exact IH | intros found']. apply quiet_ret.
Qed.

Lemma flatMapM_ret (A B : Type) (f : A -> M (list B)) (g : A -> list B) items :
  Forall (fun item => f item = ret (g item)) items ->
  flatMapM f items = ret (flat_map g items).
Proof.
  induction 1 as [| item items Hitem _ IH]; [reflexivity |].
  rewrite flatMapM_cons, Hitem, bind_ret_l, IH, bind_ret_l. reflexivity.
Qed.

Lemma flatMapM_raises (A B : Type) (f : A -> M (list B)) items :
  Forall (fun item => quiet (f item)) items ->
  Exists (fun item => exists message, f item = throw message) items ->
  exists message, flatMapM f items = throw message.
Proof.
  intros Hquiet Hraises.
  induction Hraises as [item rest Hitem | item rest _ IH];
    rewrite flatMapM_cons.
  - now apply bind_raises.
  - inversion Hquiet as [| item' rest' Hitem Hrest]; subst.
    apply bind_raises_later; [exact Hitem | intros found _].
    apply bind_raises, IH, Hrest.
Qed.

(** The traversal calls no callback and logs nothing. *)
Lemma getChildrenRecursive_quiet node : quiet (getChildrenRecursive node).
Proof.
  induction node as [t p children IH | node Hother] using jsx_children_ind.
  - rewrite getChildrenRecursive_element.
    destruct (truthyChildren children); [| apply quiet_ret].
    apply quiet_bind; [now apply flatMapM_quiet | intros below].
    apply quiet_ret.
  - destruct node; try discriminate Hother; cbn [getChildrenRecursive];
      first [apply quiet_ret | apply quiet_throw].
Qed.

(** It returns what it meets when it meets neither [null] nor
    [undefined]. *)
Lemma getChildrenRecursive_returns node :
  forallb (fun n => negb (isNullish n)) (visited node) = true ->
  getChildrenRecursive node = ret (visited node).
Proof.
  induction node as [t p children IH | node Hother] using jsx_children_ind.
  - rewrite getChildrenRecursive_element, visited_element.
    destruct (truthyChildren children); [| reflexivity].
    cbn [forallb]. intros Hall. apply andb_true_iff in Hall as [_ Hall].
    rewrite (@flatMapM_ret _ _ getChildrenRecursive visited);
      [now rewrite bind_ret_l |].
    induction IH as [| item items Hitem _ IHitems]; constructor;
      cbn [flat_map] in Hall; rewrite forallb_app in Hall;
      apply andb_true_iff in Hall as [Hfirst Hrest].
    + now apply Hitem.
    + now apply IHitems.
  - destruct node; try discriminate Hother;
      cbn [visited getChildrenRecursive forallb isNullish negb andb];
      intros Hall; try discriminate Hall; reflexivity.
Qed.

(** It raises when it meets [null] or [undefined]. *)
Lemma getChildrenRecursive_raises node :
  forallb (fun n => negb (isNullish n)) (visited node) = false ->
  exists message, getChildrenRecursive node = throw message.
Proof.
  induction node as [t p children IH | node Hother] using jsx_children_ind.
  - rewrite getChildrenRecursive_element, visited_element.
    destruct (truthyChildren children); [| discriminate].
    cbn [forallb isNullish negb andb]. intros Hall.
    apply bind_raises, flatMapM_raises.
    + apply Forall_forall. intros item _. apply getChildrenRecursive_quiet.
    + induction IH as [| item items Hitem _ IHitems]; [discriminate Hall |].
      cbn [flat_map] in Hall. rewrite forallb_app in Hall.
      apply andb_false_iff in Hall as [Hfirst | Hrest].
      * left. now apply Hitem.
      * right. now apply IHitems.
  - destruct node; try discriminate Hother;
      cbn [visited getChildrenRecursive forallb isNullish negb andb];
      intros Hall; try discriminate Hall; eexists; reflexivity.
Qed.

(** What it returns is what it meets. *)
Lemma getChildrenRecursive_meets node nodes :
  getChildrenRecursive node = ret nodes -> nodes = visited node.
Proof.
  intros Hnodes.
  destruct (forallb (fun n => negb (isNullish n)) (visited node)) eqn:Hprops.
  - rewrite (getChildrenRecursive_returns _ Hprops) in Hnodes.
    now injection Hnodes.
  - destruct (getChildrenRecursive_raises _ Hprops) as [message Hraises].
    rewrite Hraises in Hnodes. discriminate Hnodes.
Qed.

(** In a tree with plain arrays, the items of an array of children, and
    an only child that is truthy, are neither [null] nor [undefined] nor
    arrays. *)
Lemma plain_items t p children :
  truthyChildren children = true ->
  hasPlainArrays (Element t p children) = true ->
  Forall (fun item => isNullish item = false /\ isArray item = false
                      /\ hasPlainArrays item = true)
         (toArray children).
Proof.
  intros Htruthy Hplain. cbn [hasPlainArrays] in Hplain.
  destruct children as [t' p' c' | s | n text | b | | | items];
    try discriminate Htruthy; cbn [toArray];
    try (constructor; [repeat split; exact Hplain | constructor]).
  cbn [hasPlainArrays] in Hplain. rewrite forallb_forall in Hplain.
  apply Forall_forall. intros item Hin. specialize (Hplain item Hin).
  apply andb_true_iff in Hplain as [Hplain Hitem].
  apply andb_true_iff in Hplain as [Hnull Harray].
  apply negb_true_iff in Hnull, Harray. now repeat split.
Qed.

(** What is no element and no array is met alone. *)
Lemma falsy_child_is_a_leaf children :
  truthyChildren children = false ->
  depthFirst children = [children] /\ isInteractive children = false.
Proof.
  destruct children; try discriminate; intros _; split; reflexivity.
Qed.

(** In a tree with plain arrays the traversal of the source meets no
    [null] and no [undefined]; it meets nodes of the tree only, leaves
    out nothing but an only child that is falsy, and meets the nodes that
    carry a callback in depth-first order. *)
Lemma plain_visited node :
  isNullish node = false ->
  isArray node = false ->
  hasPlainArrays node = true ->
  forallb (fun n => negb (isNullish n)) (visited node) = true
  /\ (forall n, In n (visited node) -> In n (depthFirst node))
  /\ (forall n, In n (depthFirst node) ->
                In n (visited node) \/ truthyChildren n = false)
  /\ filter isInteractive (visited node)
     = filter isInteractive (depthFirst node).
Proof.
  induction node as [t p children IH | node Hother] using jsx_children_ind;
    intros Hnull Harray Hplain.
  - rewrite visited_element. cbn [depthFirst].
    destruct (truthyChildren children) eqn:Htruthy.
    + rewrite (depthFirst_toArray children).
      pose proof (plain_items t p children Htruthy Hplain) as Hitems.
      assert (Hbelow :
                forallb (fun n => negb (isNullish n))
                        (flat_map visited (toArray children)) = true
                /\ (forall n, In n (flat_map visited (toArray children)) ->
                              In n (flat_map depthFirst (toArray children)))
                /\ (forall n, In n (flat_map depthFirst (toArray children)) ->
                              In n (flat_map visited (toArray children))
                              \/ truthyChildren n = false)
                /\ filter isInteractive (flat_map visited (toArray children))
                   = filter isInteractive
                       (flat_map depthFirst (toArray children))).
      { induction IH as [| item items Hitem _ IHitems].
        - repeat split; try reflexivity; intros n [].
        - inversion Hitems as [| item' items' [Hn [Ha Hp]] Hrest]; subst.
          destruct (Hitem Hn Ha Hp) as [H1 [H2 [H3 H4]]].
          destruct (IHitems Hrest) as [R1 [R2 [R3 R4]]].
          cbn [flat_map]. repeat split.
          + now rewrite forallb_app, H1, R1.
          + intros n Hin. apply in_app_or in Hin as [Hin | Hin];
              apply in_or_app; [left; now apply H2 | right; now apply R2].
          + intros n Hin. apply in_app_or in Hin as [Hin | Hin].
            * destruct (H3 n Hin) as [Hfound | Hfalsy];
                [left; apply in_or_app; now left | now right].
            * destruct (R3 n Hin) as [Hfound | Hfalsy];
                [left; apply in_or_app; now right | now right].
          + now rewrite !filter_app, H4, R4. }
      destruct Hbelow as [B1 [B2 [B3 B4]]]. repeat split.
      * cbn [forallb isNullish negb andb]. exact B1.
      * intros n [<- | Hin]; [now left | right; now apply B2].
      * intros n [<- | Hin]; [left; now left |].
        destruct (B3 n Hin) as [Hfound | Hfalsy];
          [left; now right | now right].
      * cbn [filter]. now rewrite B4.
    + destruct (falsy_child_is_a_leaf children Htruthy) as [Hleaf Hquiet].
      rewrite Hleaf. repeat split.
      * intros n [<- | []]. now left.
      * intros n [<- | [<- | []]]; [left; now left | now right].
      * cbn [filter]. rewrite Hquiet. reflexivity.
  - destruct node; try discriminate Hother; try discriminate Hnull;
      try discriminate Harray; cbn [visited depthFirst];
      (repeat split; [intros ? Hin; exact Hin | intros ? Hin; now left]).
Qed.

(* ===================================================================== *)
(** * Building the registry *)
(* ===================================================================== *)

(** The geometry check passes on the exempt kinds and on an element that
    has [x] and [y]. *)
Lemma checkGeometry_passes node :
  isExempt node
  || (negb (JS.isUndefined (Props.x (propsOf node)))
      && negb (JS.isUndefined (Props.y (propsOf node)))) = true ->
  checkGeometry node = ret tt.
Proof.
  unfold checkGeometry, isExempt.
  destruct (hasType node CircleType), (hasType node EllipseType),
    (hasType node PolygonType), (hasType node LineType),
    (JS.isUndefined (Props.x (propsOf node))),
    (JS.isUndefined (Props.y (propsOf node))); simpl;
    intros Hok; try discriminate; reflexivity.
Qed.

(** It raises on every other element that lacks [x] or [y]. *)
Lemma checkGeometry_raises node :
  isExempt node = false ->
  JS.isUndefined (Props.x (propsOf node))
  || JS.isUndefined (Props.y (propsOf node)) = true ->
  exists message, checkGeometry node = throw message.
Proof.
  unfold checkGeometry, isExempt.
  destruct (hasType node CircleType), (hasType node EllipseType),
    (hasType node PolygonType), (hasType node LineType); simpl;
    intros Hexempt; try discriminate.
  intros ->. simpl.
  destruct (hasType node H1Type && _); eauto.
Qed.

Lemma checkGeometry_quiet node : quiet (checkGeometry node).
Proof.
  unfold checkGeometry.
  destruct (_ && _); [destruct (_ && _) |];
    first [apply quiet_ret | apply quiet_throw].
Qed.

Lemma childrenToString_quiet children :
  quiet (Text.childrenToString children).
Proof.
  destruct children; cbn [Text.childrenToString];
    first [apply quiet_ret | apply quiet_throw].
Qed.

Lemma childrenToString_returns children :
  isNullish children = false ->
  Text.childrenToString children = ret (Text.childToString children).
Proof. destruct children; try discriminate; reflexivity. Qed.

Lemma childrenToString_raises children :
  isNullish children = true ->
  exists message, Text.childrenToString children = throw message.
Proof. destruct children; try discriminate; eexists; reflexivity. Qed.

Lemma computeDimensions_quiet text : quiet (Text.computeDimensions text).
Proof.
  unfold Text.computeDimensions.
  repeat match goal with
         | |- quiet (if ?b then _ else _) => destruct b
         | |- quiet (bind _ _) =>
             apply quiet_bind; [apply childrenToString_quiet | intros ?]
         end; apply quiet_ret.
Qed.

(** [Text.computeDimensions] raises nothing when both dimensions are
    truthy or when there are children to measure. *)
Lemma computeDimensions_returns text :
  (JS.truthyValue (Props.width (propsOf text))
   && JS.truthyValue (Props.height (propsOf text)))
  || negb (isNullish (childrenProp text)) = true ->
  exists dims, Text.computeDimensions text = ret dims.
Proof.
  unfold Text.computeDimensions.
  destruct (JS.truthyValue (Props.width (propsOf text))),
    (JS.truthyValue (Props.height (propsOf text))); simpl;
    [intros _; eauto | | |];
    (intros Hok; apply negb_true_iff in Hok;
     rewrite !(childrenToString_returns _ Hok), !bind_ret_l; eauto).
Qed.

Lemma readProps_returns node :
  isNullish node = false -> readProps node = ret tt.
Proof. destruct node; try discriminate; reflexivity. Qed.

Lemma readProps_raises node :
  isNullish node = true -> exists message, readProps node = throw message.
Proof. destruct node; try discriminate; eexists; reflexivity. Qed.

Lemma interactive_has_props node :
  isInteractive node = true -> isNullish node = false.
Proof. destruct node; try discriminate; reflexivity. Qed.

Lemma nestedHandlerOf_quiet node : quiet (nestedHandlerOf node).
Proof.
  unfold nestedHandlerOf.
  apply quiet_bind;
    [destruct node; cbn [readProps];
     first [apply quiet_ret | apply quiet_throw] | intros _].
  destruct (onClickOf node); [| apply quiet_ret].
  apply quiet_bind; [apply checkGeometry_quiet | intros _].
  apply quiet_bind; [| intros dims; apply quiet_ret].
  destruct (_ || _); [apply computeDimensions_quiet | apply quiet_ret].
Qed.

Lemma nestedHandlers_quiet nodes : quiet (nestedHandlers nodes).
Proof.
  induction nodes as [| node nodes IH]; cbn [nestedHandlers];
    [apply quiet_ret |].
  apply quiet_bind; [apply nestedHandlerOf_quiet | intros hs].
  apply quiet_bind; [exact IH | intros hs']. apply quiet_ret.
Qed.

Lemma topLevelHandlersOf_quiet child : quiet (topLevelHandlersOf child).
Proof.
  destruct child as [t p children | s | n text | b | | | items];
    cbn [topLevelHandlersOf]; try apply quiet_throw.
  apply quiet_bind; [| intros nested; apply quiet_ret].
  destruct (truthyChildren children); [| apply quiet_ret].
  apply quiet_bind; [apply getChildrenRecursive_quiet | intros childChildren].
  apply nestedHandlers_quiet.
Qed.

Lemma buildLoop_quiet children acc height :
  quiet (buildLoop children acc height).
Proof.
  revert acc height. induction children as [| child children IH];
    intros acc height; cbn [buildLoop]; [apply quiet_ret |].
  apply quiet_bind; [apply topLevelHandlersOf_quiet |].
  intros [hs h']. apply IH.
Qed.

Lemma nestedHandlerOf_buildable node :
  passes node = true ->
  exists hs, nestedHandlerOf node = ret hs
             /\ map handlerElement hs = filter isInteractive [node].
Proof.
  unfold passes. intros Hok. apply andb_true_iff in Hok as [Hprops Hok].
  apply negb_true_iff in Hprops.
  unfold nestedHandlerOf. rewrite (readProps_returns _ Hprops), bind_ret_l.
  revert Hok. unfold isBuildable, isInteractive. simpl.
  destruct (onClickOf node) as [cb |]; [| intros _; exists []; split; reflexivity].
  intros Hok. apply andb_true_iff in Hok as [Hgeo Hdims].
  rewrite (checkGeometry_passes _ Hgeo), bind_ret_l.
  destruct (hasType node TextType || hasType node LinkType).
  - destruct (computeDimensions_returns _ Hdims) as [dims ->].
    rewrite bind_ret_l. eexists. split; reflexivity.
  - rewrite bind_ret_l. eexists. split; reflexivity.
Qed.

Lemma nestedHandlers_buildable nodes :
  forallb passes nodes = true ->
  exists hs, nestedHandlers nodes = ret hs
             /\ map handlerElement hs = filter isInteractive nodes.
Proof.
  induction nodes as [| node nodes IH]; simpl.
  - intros _. exists []. split; reflexivity.
  - intros Hok. apply andb_true_iff in Hok as [Hnode Hnodes].
    destruct (nestedHandlerOf_buildable _ Hnode) as [hs [-> Hhs]].
    destruct (IH Hnodes) as [hs' [-> Hhs']].
    rewrite !bind_ret_l. exists (hs ++ hs'). split; [reflexivity |].
    rewrite map_app, Hhs, Hhs'. simpl.
    destruct (isInteractive node); reflexivity.
Qed.

(** The nodes of a tree with plain arrays pass when they are
    buildable. *)
Lemma plain_visited_passes node :
  isNullish node = false ->
  isArray node = false ->
  hasPlainArrays node = true ->
  forallb isBuildable (depthFirst node) = true ->
  forallb passes (visited node) = true.
Proof.
  intros Hnull Harray Hplain Hbuildable.
  destruct (plain_visited node Hnull Harray Hplain) as [Hprops [Hincl _]].
  rewrite forallb_forall in Hprops, Hbuildable. apply forallb_forall.
  intros n Hin. unfold passes.
  now rewrite (Hprops n Hin), (Hbuildable n (Hincl n Hin)).
Qed.

Lemma forallb_passes_props nodes :
  forallb passes nodes = true ->
  forallb (fun n => negb (isNullish n)) nodes = true.
Proof.
  rewrite !forallb_forall. intros Hall n Hin. specialize (Hall n Hin).
  unfold passes in Hall. apply andb_true_iff in Hall. tauto.
Qed.

Lemma topLevelHandlersOf_plain child :
  isPlainTopLevel child = true ->
  exists hs height,
    topLevelHandlersOf child = ret (hs, height)
    /\ map handlerElement hs = filter isInteractive (depthFirst child).
Proof.
  destruct child as [t p children | s | n text | b | | | items];
    try discriminate.
  unfold isPlainTopLevel, topLevelHandlersOf.
  destruct (truthyChildren children) eqn:Htruthy.
  - intros Hok. apply andb_true_iff in Hok as [Hok Hown].
    apply andb_true_iff in Hok as [Hplain Hbuildable].
    pose proof (plain_visited_passes (Element t p children)
                  eq_refl eq_refl Hplain Hbuildable) as Hpasses.
    rewrite (getChildrenRecursive_returns _ (forallb_passes_props _ Hpasses)).
    rewrite bind_ret_l.
    destruct (nestedHandlers_buildable _ Hpasses) as [hs [-> Hhs]].
    rewrite bind_ret_l. do 2 eexists. split; [reflexivity |].
    destruct (plain_visited (Element t p children) eq_refl eq_refl Hplain)
      as [_ [_ [_ Hfilter]]].
    rewrite <- Hfilter, <- Hhs.
    apply negb_true_iff in Hown. unfold isInteractive in Hown.
    simpl in Hown. destruct (Props.onClick p); [discriminate | reflexivity].
  - intros _. rewrite bind_ret_l. do 2 eexists. split; [reflexivity |].
    rewrite app_nil_r. cbn [depthFirst filter].
    destruct (falsy_child_is_a_leaf children Htruthy) as [-> Hquiet].
    cbn [filter]. rewrite Hquiet. unfold isInteractive. simpl.
    destruct (Props.onClick p); reflexivity.
Qed.

Lemma buildLoop_plain children :
  forallb isPlainTopLevel children = true ->
  forall acc height,
  exists hs height',
    buildLoop children acc height = ret (acc ++ hs, height')
    /\ map handlerElement hs = interactiveNodes children.
Proof.
  unfold interactiveNodes.
  induction children as [| child children IH]; simpl; intros Hok acc height.
  - exists [], height. rewrite app_nil_r. split; reflexivity.
  - apply andb_true_iff in Hok as [Hchild Hchildren].
    destruct (topLevelHandlersOf_plain _ Hchild) as [hs [h' [-> Hhs]]].
    rewrite bind_ret_l.
    destruct (IH Hchildren (acc ++ hs) (JS.add height h'))
      as [hs' [height' [-> Hhs']]].
    exists (hs ++ hs'), height'. split.
    + now rewrite app_assoc.
    + now rewrite map_app, filter_app, Hhs, Hhs'.
Qed.

(** ** C8 *)

(** C8, as amended.  Take top-level children that are elements, on which
    the builder raises nothing (in the tree of a top-level child whose
    children are truthy, no [null], no [undefined] and no array is an
    item of an array, every node that carries a callback has [x] and [y]
    in its properties or is a circle, an ellipse, a polygon or a line,
    and if it is a text or a link it has children or truthy dimensions),
    and none of which both carries a callback and has truthy children.
    If N of the nodes of that tree carry a callback, the builder returns
    exactly N handlers, one for each of these nodes, in the order of the
    depth-first traversal of the tree, siblings in order. *)
Theorem C8_registry_follows_the_traversal (children : jsx) :
  forallb isPlainTopLevel (toArray children) = true ->
  exists reg,
    buildClickHandlers children = ret reg
    /\ map handlerElement (handlers reg) = interactiveNodes (toArray children)
    /\ List.length (handlers reg)
       = List.length (interactiveNodes (toArray children)).
Proof.
  intros Hplain. unfold buildClickHandlers.
  destruct (buildLoop_plain _ Hplain [] (JS.of_Z 0)) as [hs [height [-> Hhs]]].
  rewrite bind_ret_l. eexists. split; [reflexivity |]. simpl.
  split; [exact Hhs |]. now rewrite <- Hhs, length_map.
Qed.

Lemma C8_registry_follows_the_traversal_witness :
  forallb isPlainTopLevel (toArray (ArrayOf Examples.gallery)) = true
  /\ List.length (interactiveNodes Examples.gallery) = 5%nat
  /\ exists reg,
      buildClickHandlers (ArrayOf Examples.gallery) = ret reg
      /\ map handlerElement (handlers reg) = interactiveNodes Examples.gallery
      /\ List.length (handlers reg)
         = List.length (interactiveNodes Examples.gallery).
Proof.
  split; [reflexivity |]. split; [reflexivity |].
  exact (@C8_registry_follows_the_traversal
           (ArrayOf Examples.gallery) eq_refl).
Defined.

(** C8 fails as stated: the tree of one [DynamicSVG] that holds one
    clickable path without position has one node that carries a
    callback, and building its registry raises an error: no handler is
    returned. *)
Lemma C8_counterexample :
  List.length (interactiveNodes (toArray Examples.unplacedPath)) = 1%nat
  /\ buildClickHandlers Examples.unplacedPath
     = throw "Child of clickable element must have explicit dimensions and position."
  /\ ~ (exists reg, buildClickHandlers Examples.unplacedPath = ret reg).
Proof.
  split; [reflexivity |].
  split; [reflexivity |]. intros [reg Hreg]. discriminate Hreg.
Qed.

(** A top-level element that carries a callback and has children gets two
    handlers: one as a top-level child, and one as the first element that
    [getChildrenRecursive] returns. *)
Lemma top_level_group_is_registered_twice :
  exists reg,
    interactiveNodes (toArray Examples.clickableGroup)
    = [Examples.clickableGroup]
    /\ buildClickHandlers Examples.clickableGroup = ret reg
    /\ map handlerElement (handlers reg)
       = [Examples.clickableGroup; Examples.clickableGroup].
Proof.
  eexists. split; [reflexivity |].
  split; [vm_compute; reflexivity |]. reflexivity.
Qed.

(** Where an array of children holds an array, the nodes of the inner
    array are not met: the clickable rectangle in it gets no handler,
    and nothing is raised for the clickable path without position that
    stands beside it. *)
Lemma inner_array_is_not_entered :
  exists reg,
    List.length (interactiveNodes (toArray Examples.innerArray)) = 3%nat
    /\ buildClickHandlers Examples.innerArray = ret reg
    /\ map handlerElement (handlers reg)
       = [Examples.Rect 0 0 10 10 (Examples.returning 1)].
Proof.
  eexists. split; [reflexivity |].
  split; [vm_compute; reflexivity |]. reflexivity.
Qed.

(** A [null] among the children of a [DynamicSVG] makes the build raise,
    although no node of the tree lacks anything. *)
Lemma null_child_raises :
  forallb isBuildable (flat_map depthFirst (toArray Examples.withNull)) = true
  /\ buildClickHandlers Examples.withNull
     = throw "Cannot read properties of null (reading 'props')".
Proof. split; reflexivity. Qed.

(* ===================================================================== *)
(** * The geometry check *)
(* ===================================================================== *)

Lemma nestedHandlerOf_raises node :
  isInteractive node = true ->
  isExempt node = false ->
  JS.isUndefined (Props.x (propsOf node))
  || JS.isUndefined (Props.y (propsOf node)) = true ->
  exists message, nestedHandlerOf node = throw message.
Proof.
  intros Hinteractive Hexempt Hmissing. unfold nestedHandlerOf.
  rewrite (readProps_returns _ (interactive_has_props _ Hinteractive)).
  rewrite bind_ret_l. unfold isInteractive in Hinteractive.
  destruct (onClickOf node); [| discriminate].
  apply bind_raises. now apply checkGeometry_raises.
Qed.

Lemma nestedHandlers_raises nodes node :
  In node nodes ->
  (exists message, nestedHandlerOf node = throw message) ->
  exists message, nestedHandlers nodes = throw message.
Proof.
  intros Hin Hraises.
  induction nodes as [| node' nodes IH]; [contradiction |].
  cbn [nestedHandlers]. destruct Hin as [-> | Hin].
  - now apply bind_raises.
  - apply bind_raises_later; [apply nestedHandlerOf_quiet | intros hs _].
    apply bind_raises, IH, Hin.
Qed.

(** The traversal of a top-level child followed by the inner loop raises
    when the body of the loop raises on something the traversal meets. *)
Lemma traversal_raises child node :
  In node (visited child) ->
  (exists message, nestedHandlerOf node = throw message) ->
  exists message,
    (childChildren <- getChildrenRecursive child ;;
     nestedHandlers childChildren)%js = throw message.
Proof.
  intros Hin Hraises.
  destruct (forallb (fun n => negb (isNullish n)) (visited child)) eqn:Hprops.
  - rewrite (getChildrenRecursive_returns _ Hprops), bind_ret_l.
    now apply nestedHandlers_raises with (node := node).
  - now apply bind_raises, getChildrenRecursive_raises.
Qed.

Lemma topLevelHandlersOf_raises child :
  truthyChildren (childrenProp child) = true ->
  (exists message,
      (childChildren <- getChildrenRecursive child ;;
       nestedHandlers childChildren)%js = throw message) ->
  exists message, topLevelHandlersOf child = throw message.
Proof.
  destruct child as [t p children | s | n text | b | | | items];
    try discriminate.
  cbn [childrenProp topLevelHandlersOf]. intros -> Hraises.
  now apply bind_raises.
Qed.

Lemma buildLoop_raises children child :
  In child children ->
  (exists message, topLevelHandlersOf child = throw message) ->
  forall acc height,
  exists message, buildLoop children acc height = throw message.
Proof.
  intros Hin Hraises.
  induction children as [| child' children IH]; [contradiction |].
  intros acc height. cbn [buildLoop]. destruct Hin as [-> | Hin].
  - now apply bind_raises.
  - apply bind_raises_later; [apply topLevelHandlersOf_quiet |].
    intros [hs h'] _. apply (IH Hin).
Qed.

Lemma exempt_is_no_text node :
  isExempt node = true ->
  hasType node TextType || hasType node LinkType = false.
Proof.
  destruct node as [t p children | s | n text | b | | | items];
    try discriminate.
  destruct t; try discriminate; reflexivity.
Qed.

Lemma exempt_has_props node : isExempt node = true -> isNullish node = false.
Proof. destruct node; try discriminate; reflexivity. Qed.

(** ** C6 *)

(** C6, as amended.  While the registry is built, take a node that
    carries a callback and that the traversal meets below a top-level
    child whose children are truthy: the traversal goes from an element
    to its children and to the items of its array of children, and does
    not enter an array that is itself an item of an array.  If the node
    is a circle, an ellipse, a polygon or a line, no error is raised
    whatever [x], [y], [width] and [height] it has, and its handler is
    registered.  If it is of any other kind, a toggle included, and has
    no [x] or no [y] in its properties, the build itself raises an error:
    no registry is returned. *)
Theorem C6_geometry_is_checked_at_build_time :
  (forall (node : jsx) (cb : callback),
      isExempt node = true ->
      onClickOf node = Some cb ->
      nestedHandlerOf node
      = ret [NestedHandler node {| w := Props.width (propsOf node);
                                   h := Props.height (propsOf node) |}])
  /\ (forall (children child node : jsx),
         In child (toArray children) ->
         truthyChildren (childrenProp child) = true ->
         In node (visited child) ->
         isInteractive node = true ->
         isExempt node = false ->
         JS.isUndefined (Props.x (propsOf node))
         || JS.isUndefined (Props.y (propsOf node)) = true ->
         exists message, buildClickHandlers children = throw message).
Proof.
  split.
  - intros node cb Hexempt Hcb. unfold nestedHandlerOf.
    rewrite (readProps_returns _ (exempt_has_props _ Hexempt)), bind_ret_l.
    rewrite Hcb.
    rewrite checkGeometry_passes by (rewrite Hexempt; reflexivity).
    rewrite bind_ret_l, (exempt_is_no_text _ Hexempt). reflexivity.
  - intros children child node Hchild Htruthy Hnode
           Hinteractive Hexempt Hmissing.
    unfold buildClickHandlers. apply bind_raises.
    apply buildLoop_raises with (child := child); [exact Hchild |].
    apply topLevelHandlersOf_raises; [exact Htruthy |].
    apply traversal_raises with (node := node); [exact Hnode |].
    now apply nestedHandlerOf_raises.
Qed.

Lemma C6_geometry_is_checked_at_build_time_witness :
  let circle := Examples.Circle 100 100 50 (Examples.returning 2) in
  let svg := Examples.DynamicSVG None [circle; Examples.headingWithoutY] in
  (isExempt circle = true
   /\ nestedHandlerOf circle
      = ret [NestedHandler circle {| w := None; h := None |}])
  /\ (In Examples.headingWithoutY (visited svg)
      /\ isExempt Examples.headingWithoutY = false
      /\ Props.y (propsOf Examples.headingWithoutY) = None
      /\ exists message, buildClickHandlers svg = throw message).
Proof.
  intros circle svg.
  destruct C6_geometry_is_checked_at_build_time as [Hexempt Hraises].
  split.
  - split; [reflexivity |].
    exact (Hexempt circle {| cb_id := 2; cb_throws := None |}
                   eq_refl eq_refl).
  - split; [simpl; tauto |]. split; [reflexivity |]. split; [reflexivity |].
    refine (Hraises svg svg Examples.headingWithoutY
                    _ eq_refl _ eq_refl eq_refl eq_refl).
    + left. reflexivity.
    + simpl. tauto.
Defined.

(** C6 fails as stated: a clickable toggle that has no [x], under a
    [DynamicSVG], makes the build raise. *)
Lemma C6_counterexample :
  exists toggle,
    In toggle (visited Examples.toggleWithoutX)
    /\ typeOf toggle = Some ToggleType
    /\ isInteractive toggle = true
    /\ buildClickHandlers Examples.toggleWithoutX
       = throw "Child of clickable element must have explicit dimensions and position.".
Proof.
  eexists. split; [simpl; right; left; reflexivity |].
  repeat split.
Qed.

(* ===================================================================== *)
(** * The dimensions of a text *)
(* ===================================================================== *)

(** ** C10 *)

(** C10, as amended.  For a text or a link that carries a callback,
    declares [x] and [y], has children, and is found below a top-level
    child, the builder registers a handler whose box has: for width, the
    declared width when it is truthy (declared, not 0 and not NaN), and
    otherwise the largest length of the lines of the text times the font
    size, minus the font size; for height, the declared height when it is
    truthy, and otherwise 1.1 times the font size times the number of
    lines plus one.  The lines are those that the newlines separate in
    [children.toString()], and the font size is the declared one when it
    is truthy and 16 otherwise. *)
Theorem C10_text_dimensions_are_computed
        (text : jsx) (cb : callback) (s : string) :
  hasType text TextType || hasType text LinkType = true ->
  onClickOf text = Some cb ->
  JS.isUndefined (Props.x (propsOf text)) = false ->
  JS.isUndefined (Props.y (propsOf text)) = false ->
  Text.childrenToString (childrenProp text) = ret s ->
  let p := propsOf text in
  let fontSize := JS.orDefault (Props.fontSize p) (JS.of_Z 16) in
  let lines := JS.split (ascii_of_nat 10) s in
  nestedHandlerOf text
  = ret [NestedHandler text
           {| w := if JS.truthyValue (Props.width p) then Props.width p
                   else Some (JS.sub
                                (JS.mul
                                   (JS.Math.max
                                      (map (fun line =>
                                              JS.of_nat (String.length line))
                                           lines))
                                   fontSize)
                                fontSize);
              h := if JS.truthyValue (Props.height p) then Props.height p
                   else Some (JS.mul
                                (JS.mul JS.lit_1_1 fontSize)
                                (JS.add (JS.of_nat (List.length lines))
                                        (JS.of_Z 1))) |}].
Proof.
  intros Htext Hcb Hx Hy Hs. cbv zeta.
  unfold nestedHandlerOf.
  rewrite (@readProps_returns text)
    by (apply interactive_has_props; unfold isInteractive; now rewrite Hcb).
  rewrite bind_ret_l, Hcb.
  rewrite checkGeometry_passes by (rewrite Hx, Hy; apply orb_true_r).
  rewrite bind_ret_l, Htext.
  unfold Text.computeDimensions. rewrite Hs.
  destruct (JS.truthyValue (Props.width (propsOf text))),
    (JS.truthyValue (Props.height (propsOf text)));
    cbn [andb negb]; rewrite !bind_ret_l; reflexivity.
Qed.

Lemma C10_text_dimensions_are_computed_witness :
  Text.childrenToString (childrenProp Examples.unsizedText)
  = ret Examples.twoLines
  /\ nestedHandlerOf Examples.unsizedText
     = ret [NestedHandler Examples.unsizedText
              {| w := Some (JS.sub (JS.mul (JS.of_Z 6) (JS.of_Z 16))
                                   (JS.of_Z 16));
                 h := Some (JS.mul (JS.mul JS.lit_1_1 (JS.of_Z 16))
                                   (JS.add (JS.of_Z 2) (JS.of_Z 1))) |}].
Proof.
  split; [reflexivity |].
  exact (@C10_text_dimensions_are_computed Examples.unsizedText
           {| cb_id := 1; cb_throws := None |} Examples.twoLines
           eq_refl eq_refl eq_refl eq_refl eq_refl).
Defined.

(** C10 fails as stated: a text that declares a width of 0 and a height
    of 20 does not keep its declared width; the width of its box is the
    one computed from its five characters, 5 * 16 - 16 = 64. *)
Lemma C10_counterexample :
  Props.width (propsOf Examples.zeroWidthText) = Some (JS.of_Z 0)
  /\ Props.height (propsOf Examples.zeroWidthText) = Some (JS.of_Z 20)
  /\ nestedHandlerOf Examples.zeroWidthText
     = ret [NestedHandler Examples.zeroWidthText
              {| w := Some (JS.of_Z 64); h := Some (JS.of_Z 20) |}].
Proof.
  split; [reflexivity |]. split; [reflexivity |].
  vm_compute. reflexivity.
Qed.

(* ===================================================================== *)
(** * Further properties of the dispatcher *)
(* ===================================================================== *)

(** X1.  A click that passes the test of no handler has no effect: no
    callback is called, nothing is logged and nothing is raised. *)
Theorem dispatch_without_match_does_nothing
        (H x y : JS.number) (hs : list handler) :
  Forall (fun hd => hitTest H hd x y = false) hs ->
  dispatchLoop H hs x y = ([], Normal tt).
Proof.
  induction 1 as [| hd hs Hmiss _ IH]; [reflexivity |].
  cbn [dispatchLoop]. rewrite (runHandler_miss _ _ _ _ Hmiss), bind_ret_l.
  exact IH.
Qed.

Lemma dispatch_without_match_does_nothing_witness :
  Forall (fun hd => hitTest (JS.of_Z 0) hd (JS.of_Z 300) (JS.of_Z 300) = false)
         (handlers MoreExamples.someRegistry)
  /\ dispatchLoop (JS.of_Z 0) (handlers MoreExamples.someRegistry)
                  (JS.of_Z 300) (JS.of_Z 300) = ([], Normal tt).
Proof.
  assert (Hmiss : Forall (fun hd => hitTest (JS.of_Z 0) hd (JS.of_Z 300)
                                            (JS.of_Z 300) = false)
                         (handlers MoreExamples.someRegistry)).
  { repeat constructor. }
  split; [exact Hmiss |].
  exact (@dispatch_without_match_does_nothing
           (JS.of_Z 0) (JS.of_Z 300) (JS.of_Z 300)
           (handlers MoreExamples.someRegistry) Hmiss).
Defined.

Lemma runHandler_nested_shape H x y childChild dims :
  hasCallback (NestedHandler childChild dims) = true ->
  runHandler H (NestedHandler childChild dims) x y = ret false
  \/ (exists i, runHandler H (NestedHandler childChild dims) x y
                = ([Invoked i x y], Normal true))
  \/ (exists failure, runHandler H (NestedHandler childChild dims) x y
                      = (failedCall x y failure, Normal false))
  \/ (exists i error, runHandler H (NestedHandler childChild dims) x y
                      = ([Invoked i x y], Throw error)).
Proof.
  unfold hasCallback, isInteractive. cbn [handlerElement runHandler].
  destruct (onClickOf childChild) as [cb |] eqn:Hcb; [intros _ | discriminate].
  destruct (nestedTest childChild dims x y); [| left; reflexivity].
  right. unfold callOnClick, call. rewrite Hcb.
  destruct (cb_throws cb) as [error |] eqn:Hthrows.
  - right. destruct error as [| | b | n | s | message].
    + right. do 2 eexists. reflexivity.
    + right. do 2 eexists. reflexivity.
    + left. exists (cb_id cb, JUndefined). reflexivity.
    + left. exists (cb_id cb, JUndefined). reflexivity.
    + left. exists (cb_id cb, JUndefined). reflexivity.
    + left. exists (cb_id cb, message). reflexivity.
  - left. exists (cb_id cb). reflexivity.
Qed.

Lemma runHandler_top_level_shape H x y child :
  hasCallback (TopLevelHandler child) = true ->
  runHandler H (TopLevelHandler child) x y = ret false
  \/ (exists i, runHandler H (TopLevelHandler child) x y
                = ([Invoked i x y], Normal true))
  \/ (exists i error, runHandler H (TopLevelHandler child) x y
                      = ([Invoked i x y], Throw error)).
Proof.
  unfold hasCallback, isInteractive. cbn [handlerElement runHandler].
  destruct (onClickOf child) as [cb |] eqn:Hcb; [intros _ | discriminate].
  destruct (topLevelTest H child x y); [| left; reflexivity].
  right. unfold callOnClick, call. rewrite Hcb.
  destruct (cb_throws cb) as [error |] eqn:Hthrows.
  - right. exists (cb_id cb), error. reflexivity.
  - left. exists (cb_id cb). reflexivity.
Qed.

(** X2.  In a registry whose handlers all have a callback, what one click
    does is a run of failed calls, each a callback called at the clicked
    coordinate that threw and of which the [message] of what it threw was
    logged, followed by at most one more call at the clicked coordinate:
    every callback called before the last one has failed, and nothing
    else is logged. *)
Theorem dispatch_trace_is_failures_then_one_call
        (H x y : JS.number) (hs : list handler) :
  forallb hasCallback hs = true ->
  exists (failures : list (nat * jsvalue)) (last : list event),
    trace (dispatchLoop H hs x y)
    = flat_map (failedCall x y) failures ++ last
    /\ (last = [] \/ exists i, last = [Invoked i x y]).
Proof.
  induction hs as [| hd hs IH]; intros Hall.
  - exists [], []. split; [reflexivity | left; reflexivity].
  - cbn [forallb] in Hall. apply andb_true_iff in Hall as [Hhd Hhs].
    destruct (IH Hhs) as [failures [last [Htrace Hlast]]].
    cbn [dispatchLoop].
    destruct hd as [child | childChild dims].
    + destruct (runHandler_top_level_shape H x y child Hhd)
        as [-> | [[i ->] | [i [error ->]]]].
      * rewrite bind_ret_l. exists failures, last. split; assumption.
      * exists [], [Invoked i x y]. split; [reflexivity | right; eauto].
      * exists [], [Invoked i x y]. split; [reflexivity | right; eauto].
    + destruct (runHandler_nested_shape H x y childChild dims Hhd)
        as [-> | [[i ->] | [[failure ->] | [i [error ->]]]]].
      * rewrite bind_ret_l. exists failures, last. split; assumption.
      * exists [], [Invoked i x y]. split; [reflexivity | right; eauto].
      * exists (failure :: failures), last. split; [| exact Hlast].
        unfold bind. unfold trace in Htrace.
        destruct (dispatchLoop H hs x y) as [t r]. cbn in Htrace |- *.
        now rewrite Htrace.
      * exists [], [Invoked i x y]. split; [reflexivity | right; eauto].
Qed.

Lemma dispatch_trace_is_failures_then_one_call_witness :
  exists reg,
    buildClickHandlers Examples.stacked = ret reg
    /\ forallb hasCallback (handlers reg) = true
    /\ exists failures last,
        trace (dispatchLoop (heightUpToNow reg) (handlers reg)
                            (JS.of_Z 50) (JS.of_Z 50))
        = flat_map (failedCall (JS.of_Z 50) (JS.of_Z 50)) failures ++ last
        /\ (last = [] \/ exists i, last = [Invoked i (JS.of_Z 50) (JS.of_Z 50)]).
Proof.
  eexists. split; [vm_compute; reflexivity |].
  split; [reflexivity |].
  apply dispatch_trace_is_failures_then_one_call. reflexivity.
Defined.



(** X4.  The handler of a top-level child does not catch what its
    callback throws: when it is the first handler whose test succeeds,
    the exception, whichever value it is, leaves the dispatcher, nothing
    is logged, and no later handler runs. *)
Theorem top_level_exception_leaves_the_dispatcher
        (H x y : JS.number) (pre post : list handler) (child : jsx)
        (cb : callback) (error : jsvalue) :
  Forall (fun hd => hitTest H hd x y = false) pre ->
  topLevelTest H child x y = true ->
  onClickOf child = Some cb ->
  cb_throws cb = Some error ->
  dispatchLoop H (pre ++ TopLevelHandler child :: post) x y
  = ([Invoked (cb_id cb) x y], Throw error).
Proof.
  intros Hpre Hhit Hcb Hthrows.
  rewrite (dispatchLoop_skip _ _ _ _ Hpre).
  cbn [dispatchLoop runHandler]. rewrite Hhit.
  unfold callOnClick, call. rewrite Hcb, Hthrows. reflexivity.
Qed.

Lemma top_level_exception_leaves_the_dispatcher_witness :
  let far := Examples.nestedHandlerFor
               (Examples.Rect 500 500 50 50 (Examples.returning 7)) in
  let top := Examples.Rect 0 0 100 100 (Examples.throwing 1 "boom") in
  let behind := Examples.nestedHandlerFor
                  (Examples.Rect 0 0 100 100 (Examples.returning 2)) in
  topLevelTest (JS.of_Z 100) top (JS.of_Z 50) (JS.of_Z 50) = true
  /\ dispatchLoop (JS.of_Z 100) ([far] ++ TopLevelHandler top :: [behind])
                  (JS.of_Z 50) (JS.of_Z 50)
     = ([Invoked 1 (JS.of_Z 50) (JS.of_Z 50)], Throw (JError "boom")).
Proof.
  intros far top behind. split; [reflexivity |].
  refine (@top_level_exception_leaves_the_dispatcher
            (JS.of_Z 100) (JS.of_Z 50) (JS.of_Z 50) [far] [behind] top
            {| cb_id := 1; cb_throws := Some (JError "boom") |}
            (JError "boom") _ eq_refl eq_refl eq_refl).
  constructor; [reflexivity | constructor].
Defined.

(* ===================================================================== *)
(** * Further properties of the payload *)
(* ===================================================================== *)

Lemma split_not_nil sep s : JS.split sep s <> [].
Proof.
  destruct s as [| c r]; cbn [JS.split]; [discriminate |].
  destruct (Ascii.eqb c sep); [discriminate |].
  destruct (JS.split sep r); discriminate.
Qed.

(** A string splits into one component more than it has separators. *)
Lemma split_length sep s :
  List.length (JS.split sep s) = S (countChar sep s).
Proof.
  induction s as [| c r IH]; cbn [JS.split countChar]; [reflexivity |].
  destruct (Ascii.eqb c sep); cbn [List.length]; [now rewrite IH |].
  destruct (JS.split sep r) as [| h t] eqn:Hsplit.
  - discriminate IH.
  - cbn [List.length] in *. exact IH.
Qed.



Lemma countChar_app c a b :
  countChar c (a ++ b) = (countChar c a + countChar c b)%nat.
Proof.
  induction a as [| c' r IH]; cbn [countChar append]; [reflexivity |].
  rewrite IH. apply Nat.add_assoc.
Qed.

(** X5.  A text that does not hold exactly one comma is dropped before any
    handler runs: nothing is called, logged or raised, whatever the
    registry.  A chunk that carries two clicks is such a text. *)
Theorem payload_without_exactly_one_comma_is_dropped
        (clickHandlers : registry) (output : string) :
  countChar ","%char output <> 1%nat ->
  clickHandler clickHandlers output = ([], Normal tt).
Proof.
  intros Hcount. unfold clickHandler. rewrite split_length.
  destruct (Nat.eqb_spec (S (countChar ","%char output)) 2) as [Heq |];
    [| reflexivity].
  exfalso. apply Hcount. now injection Heq.
Qed.

Lemma payload_without_exactly_one_comma_is_dropped_witness :
  exists reg,
    buildClickHandlers Examples.topLevelRect = ret reg
    /\ countChar ","%char (String "1" (String "," (String "2"
         (String (ascii_of_nat 10) (String "3" (String "," (String "4" ""))))))) = 2%nat
    /\ clickHandler reg (String "1" (String "," (String "2"
         (String (ascii_of_nat 10) (String "3" (String "," (String "4" "")))))))
       = ([], Normal tt).
Proof.
  eexists. split; [vm_compute; reflexivity |]. split; [reflexivity |].
  apply payload_without_exactly_one_comma_is_dropped.
  cbn. discriminate.
Defined.















(** X7.  When a registry holds handlers of nested elements only, a text
    one of whose two components [parseInt] reads as NaN (a word, nothing
    at all after the comma) calls no callback: every test of such a
    handler fails on NaN. *)
Theorem payload_with_NaN_reaches_no_nested_handler
        (clickHandlers : registry) (output : string) :
  forallb isNestedHandler (handlers clickHandlers) = true ->
  JS.isNaN (JS.parseIntAt (JS.split ","%char output) 0)
  || JS.isNaN (JS.parseIntAt (JS.split ","%char output) 1) = true ->
  clickHandler clickHandlers output = ([], Normal tt).
Proof.
  intros Hnested Hnan. unfold clickHandler.
  destruct (negb _); [reflexivity |].
  apply dispatchLoop_no_match.
  rewrite forallb_forall in Hnested. apply Forall_forall. intros hd Hin.
  specialize (Hnested hd Hin).
  destruct hd as [child | childChild dims]; [discriminate |].
  cbn [hitTest]. apply nestedTest_NaN. now apply orb_true_iff.
Qed.

Lemma payload_with_NaN_reaches_no_nested_handler_witness :
  JS.parseIntAt (JS.split ","%char "50,") 1 = JS.NaN
  /\ clickHandler MoreExamples.someRegistry "50," = ([], Normal tt).
Proof.
  split; [reflexivity |].
  exact (@payload_with_NaN_reaches_no_nested_handler
           MoreExamples.someRegistry "50," eq_refl eq_refl).
Defined.

(* ===================================================================== *)
(** * Further properties of the builder *)
(* ===================================================================== *)

Lemma buildClickHandlers_quiet children : quiet (buildClickHandlers children).
Proof.
  unfold buildClickHandlers.
  apply quiet_bind; [apply buildLoop_quiet | intros [hs h']; apply quiet_ret].
Qed.

(** X8.  Building the click handlers calls no callback and logs nothing,
    whatever the tree and whether the build returns a registry or raises:
    callbacks only ever run from the dispatcher. *)
Theorem building_the_registry_calls_nothing (children : jsx) :
  trace (buildClickHandlers children) = []
  /\ invocations (buildClickHandlers children) = [].
Proof.
  unfold invocations.
  rewrite (quiet_silent (buildClickHandlers_quiet children)).
  split; reflexivity.
Qed.

Lemma forallb_false_exists (A : Type) (f : A -> bool) (l : list A) :
  forallb f l = false -> exists a, In a l /\ f a = false.
Proof.
  induction l as [| a l IH]; cbn [forallb]; [discriminate |].
  destruct (f a) eqn:Hfa.
  - intros Hl. destruct (IH Hl) as [b [Hin Hb]]. exists b. split;
      [right; exact Hin | exact Hb].
  - intros _. exists a. split; [left; reflexivity | exact Hfa].
Qed.

(** [Text.computeDimensions] raises when a dimension is falsy and the
    children are [undefined] or [null]. *)
Lemma computeDimensions_raises text :
  JS.truthyValue (Props.width (propsOf text))
  && JS.truthyValue (Props.height (propsOf text)) = false ->
  isNullish (childrenProp text) = true ->
  exists message, Text.computeDimensions text = throw message.
Proof.
  intros Hfalsy Hnone. unfold Text.computeDimensions.
  destruct (childrenToString_raises _ Hnone) as [message Hraises].
  destruct (JS.truthyValue (Props.width (propsOf text))),
    (JS.truthyValue (Props.height (propsOf text))); cbn [andb negb] in *;
    try discriminate Hfalsy; rewrite Hraises; exists message; reflexivity.
Qed.

(** The body of the inner loop raises on what does not pass. *)
Lemma nestedHandlerOf_not_passing node :
  passes node = false ->
  exists message, nestedHandlerOf node = throw message.
Proof.
  unfold passes, nestedHandlerOf. destruct (isNullish node) eqn:Hprops.
  - intros _. now apply bind_raises, readProps_raises.
  - cbn [negb andb]. rewrite (readProps_returns _ Hprops), bind_ret_l.
    unfold isBuildable.
    destruct (onClickOf node) as [cb |]; [| discriminate].
    destruct (isExempt node
              || negb (JS.isUndefined (Props.x (propsOf node)))
                 && negb (JS.isUndefined (Props.y (propsOf node)))) eqn:Hgeo.
    + rewrite (checkGeometry_passes _ Hgeo), bind_ret_l. cbn [andb].
      destruct (hasType node TextType || hasType node LinkType);
        [| discriminate].
      intros Hnot. apply orb_false_iff in Hnot as [Hfalsy Hnone].
      apply negb_false_iff in Hnone.
      now apply bind_raises, computeDimensions_raises.
    + intros _. apply orb_false_iff in Hgeo as [Hexempt Hxy].
      apply bind_raises, checkGeometry_raises; [exact Hexempt |].
      destruct (JS.isUndefined (Props.x (propsOf node))),
        (JS.isUndefined (Props.y (propsOf node))); try reflexivity;
        discriminate Hxy.
Qed.

(** What the body of the outer loop returns on a top-level child on
    which it raises nothing. *)
Lemma topLevelHandlersOf_buildable child :
  isBuildableTopLevel child = true ->
  exists hs,
    topLevelHandlersOf child
    = ret (hs, JS.orDefault (Props.height (propsOf child)) (JS.of_Z 0))
    /\ map handlerElement hs = registeredNodes child.
Proof.
  destruct child as [t p children | s | n text | b | | | items];
    try discriminate.
  unfold isBuildableTopLevel, topLevelHandlersOf, registeredNodes.
  cbn [childrenProp propsOf].
  destruct (truthyChildren children) eqn:Htruthy.
  - intros Hpasses.
    rewrite (getChildrenRecursive_returns _ (forallb_passes_props _ Hpasses)).
    rewrite bind_ret_l.
    destruct (nestedHandlers_buildable _ Hpasses) as [hs [-> Hhs]].
    rewrite bind_ret_l. eexists. split; [reflexivity |].
    rewrite map_app, Hhs.
    change (isInteractive (Element t p children))
      with (match Props.onClick p with Some _ => true | None => false end).
    destruct (Props.onClick p); reflexivity.
  - intros _. rewrite bind_ret_l. eexists. split; [reflexivity |].
    rewrite !app_nil_r. unfold isInteractive. cbn [onClickOf].
    destruct (Props.onClick p); reflexivity.
Qed.

Lemma topLevelHandlersOf_not_buildable child :
  isBuildableTopLevel child = false ->
  exists message, topLevelHandlersOf child = throw message.
Proof.
  destruct child as [t p children | s | n text | b | | | items];
    try (intros _; eexists; reflexivity).
  unfold isBuildableTopLevel.
  destruct (truthyChildren children) eqn:Htruthy; [| discriminate].
  intros Hnot. apply forallb_false_exists in Hnot as [node [Hin Hnode]].
  apply topLevelHandlersOf_raises; [exact Htruthy |].
  apply traversal_raises with (node := node); [exact Hin |].
  now apply nestedHandlerOf_not_passing.
Qed.

Lemma buildLoop_buildable children :
  forallb isBuildableTopLevel children = true ->
  forall acc height,
  exists hs,
    buildLoop children acc height
    = ret (acc ++ hs,
           fold_left JS.add
             (map (fun child =>
                     JS.orDefault (Props.height (propsOf child)) (JS.of_Z 0))
                  children)
             height)
    /\ map handlerElement hs = flat_map registeredNodes children.
Proof.
  induction children as [| child children IH]; cbn [forallb];
    intros Hall acc height.
  - exists []. rewrite app_nil_r. split; reflexivity.
  - apply andb_true_iff in Hall as [Hchild Hchildren].
    destruct (topLevelHandlersOf_buildable _ Hchild) as [hs [Hhs Hmap]].
    cbn [buildLoop]. rewrite Hhs, bind_ret_l.
    destruct (IH Hchildren (acc ++ hs)
                 (JS.add height
                    (JS.orDefault (Props.height (propsOf child)) (JS.of_Z 0))))
      as [hs' [Hhs' Hmap']].
    rewrite Hhs'. exists (hs ++ hs'). split.
    + cbn [map fold_left]. now rewrite app_assoc.
    + cbn [flat_map]. now rewrite map_app, Hmap, Hmap'.
Qed.

Lemma buildLoop_not_buildable children :
  forallb isBuildableTopLevel children = false ->
  forall acc height,
  exists message, buildLoop children acc height = throw message.
Proof.
  intros Hnot. apply forallb_false_exists in Hnot as [child [Hin Hchild]].
  apply buildLoop_raises with (child := child); [exact Hin |].
  now apply topLevelHandlersOf_not_buildable.
Qed.

(** The two outcomes of the build. *)
Lemma buildClickHandlers_cases children :
  (forallb isBuildableTopLevel (toArray children) = true
   /\ exists hs,
       buildClickHandlers children
       = ret {| handlers := hs;
                heightUpToNow := totalHeight (toArray children) |}
       /\ map handlerElement hs = flat_map registeredNodes (toArray children))
  \/ (forallb isBuildableTopLevel (toArray children) = false
      /\ exists message, buildClickHandlers children = throw message).
Proof.
  unfold buildClickHandlers.
  destruct (forallb isBuildableTopLevel (toArray children)) eqn:Hall.
  - left. split; [reflexivity |].
    destruct (buildLoop_buildable _ Hall [] (JS.of_Z 0)) as [hs [-> Hmap]].
    rewrite bind_ret_l. exists hs. split; [reflexivity | exact Hmap].
  - right. split; [reflexivity |].
    now apply bind_raises, buildLoop_not_buildable.
Qed.

(** X9.  The build returns a registry exactly when every top-level child
    is an element and, for each one whose children are truthy, the
    traversal meets neither [null] nor [undefined] (it goes from an
    element to its children and to the items of its array of children,
    and does not enter an array that is an item of an array), and every
    node it meets that carries a callback has [x] and [y] in its
    properties or is a circle, an ellipse, a polygon or a line, and, if it
    is a text or a link, has children, neither [undefined] nor [null], or
    two truthy dimensions.  In every other case the build raises an
    error. *)
Theorem build_returns_exactly_on_buildable_trees (children : jsx) :
  ((exists reg, buildClickHandlers children = ret reg)
   <-> forallb isBuildableTopLevel (toArray children) = true)
  /\ ((exists message, buildClickHandlers children = throw message)
      <-> forallb isBuildableTopLevel (toArray children) = false).
Proof.
  destruct (buildClickHandlers_cases children)
    as [[Hall [hs [Hreg _]]] | [Hall [message Hthrow]]]; rewrite Hall.
  - split; split.
    + reflexivity.
    + intros _. eexists. exact Hreg.
    + intros [message Hthrow]. rewrite Hreg in Hthrow. discriminate.
    + discriminate.
  - split; split.
    + intros [reg Hreg]. rewrite Hthrow in Hreg. discriminate.
    + discriminate.
    + reflexivity.
    + intros _. exists message. exact Hthrow.
Qed.

(** X10.  When the build returns a registry, the value that the handlers
    of the top-level children read in [heightUpToNow] is the sum of the
    heights of all the top-level children, each [height || 0], whichever
    child the handler was made for. *)
Theorem heightUpToNow_is_the_total_height (children : jsx) (reg : registry) :
  buildClickHandlers children = ret reg ->
  heightUpToNow reg = totalHeight (toArray children).
Proof.
  intros Hreg.
  destruct (buildClickHandlers_cases children)
    as [[_ [hs [Hbuilt _]]] | [_ [message Hthrow]]].
  - rewrite Hbuilt in Hreg. injection Hreg as <-. reflexivity.
  - rewrite Hthrow in Hreg. discriminate.
Qed.

Lemma heightUpToNow_is_the_total_height_witness :
  exists reg,
    buildClickHandlers Examples.twoSiblings = ret reg
    /\ totalHeight (toArray Examples.twoSiblings) = JS.of_Z 150
    /\ heightUpToNow reg = totalHeight (toArray Examples.twoSiblings).
Proof.
  eexists.
  assert (Hreg : buildClickHandlers Examples.twoSiblings
                 = ret {| handlers :=
                            [Examples.nestedHandlerFor
                               (Examples.Rect 0 10 100 40 (Examples.returning 1))];
                          heightUpToNow := JS.of_Z 150 |}).
  { vm_compute. reflexivity. }
  split; [exact Hreg |]. split; [vm_compute; reflexivity |].
  exact (@heightUpToNow_is_the_total_height Examples.twoSiblings _ Hreg).
Defined.

(** X11.  When the build returns a registry, its handlers are, for each
    top-level child in order: one for the child itself when it carries a
    callback, and then, when the children of that child are truthy, one
    for each node met by the traversal that carries a callback, in the
    order in which the traversal meets them, the child itself among them.
    The traversal goes from an element to its children and to the items
    of its array of children; it does not enter an array that is an item
    of an array, whose nodes get no handler.  Every handler is for a node
    that carries a callback. *)
Theorem registry_lists_the_registered_nodes
        (children : jsx) (reg : registry) :
  buildClickHandlers children = ret reg ->
  map handlerElement (handlers reg)
  = flat_map registeredNodes (toArray children)
  /\ forallb hasCallback (handlers reg) = true.
Proof.
  intros Hreg.
  destruct (buildClickHandlers_cases children)
    as [[_ [hs [Hbuilt Hmap]]] | [_ [message Hthrow]]].
  - rewrite Hbuilt in Hreg. injection Hreg as <-.
    cbn [handlers]. split; [exact Hmap |].
    apply forallb_forall. intros hd Hin. unfold hasCallback.
    assert (Hnode : In (handlerElement hd)
                       (flat_map registeredNodes (toArray children))).
    { rewrite <- Hmap. now apply in_map. }
    apply in_flat_map in Hnode as [child [_ Hnode]].
    unfold registeredNodes in Hnode. apply in_app_or in Hnode as [Hown | Hsub].
    + destruct (isInteractive child) eqn:Hchild; [| contradiction].
      destruct Hown as [<- | []]. exact Hchild.
    + destruct (truthyChildren (childrenProp child)); [| contradiction].
      apply filter_In in Hsub. tauto.
  - rewrite Hthrow in Hreg. discriminate.
Qed.

Lemma registry_lists_the_registered_nodes_witness :
  exists reg,
    buildClickHandlers Examples.innerArray = ret reg
    /\ flat_map registeredNodes (toArray Examples.innerArray)
       = [Examples.Rect 0 0 10 10 (Examples.returning 1)]
    /\ map handlerElement (handlers reg)
       = flat_map registeredNodes (toArray Examples.innerArray)
    /\ forallb hasCallback (handlers reg) = true.
Proof.
  eexists.
  match goal with
  | |- ?b = ret ?r /\ _ =>
      assert (Hreg : b = ret r) by (vm_compute; reflexivity)
  end.
  split; [exact Hreg |]. split; [reflexivity |].
  exact (@registry_lists_the_registered_nodes Examples.innerArray _ Hreg).
Defined.

(** X12.  When the build raises nothing and meets no node that carries a
    callback, the effect does not call [setClickHandlers]: the registry
    kept from the render before stays in place.  The effect then renders
    the top-level children in order and sets [content] to the markup; it
    raises what [renderToString] or [encodeURI] raises, and it does
    nothing of all that while loading is awaited. *)
Theorem effect_keeps_the_registry_when_nothing_is_clickable
        (renderToString : jsx -> M string) (encodeURI : string -> M string)
        (isLoading waitUntilAllLoaded : bool) (children : jsx)
        (st : state) :
  forallb isBuildableTopLevel (toArray children) = true ->
  flat_map registeredNodes (toArray children) = [] ->
  effect renderToString encodeURI isLoading waitUntilAllLoaded children st
  = if isLoading && waitUntilAllLoaded then ret st
    else
      (markup <- dataString renderToString encodeURI (toArray children) ;;
       ret {| clickHandlers := clickHandlers st; content := markup |})%js.
Proof.
  intros Hall Hnone. unfold effect.
  destruct (isLoading && waitUntilAllLoaded); [reflexivity |].
  destruct (buildClickHandlers_cases children)
    as [[_ [hs [-> Hmap]]] | [Hnot _]].
  - rewrite bind_ret_l. cbn [handlers].
    rewrite Hnone in Hmap. destruct hs; [reflexivity | discriminate].
  - rewrite Hnot in Hall. discriminate.
Qed.

Lemma effect_keeps_the_registry_when_nothing_is_clickable_witness :
  flat_map registeredNodes (toArray MoreExamples.staticSVG) = []
  /\ effect MoreExamples.renderAsName MoreExamples.encodeAsIs
            false false MoreExamples.staticSVG
            {| clickHandlers := MoreExamples.someRegistry;
               content := EmptyString |}
     = ret {| clickHandlers := MoreExamples.someRegistry;
              content := MoreExamples.staticMarkup |}.
Proof.
  split; [reflexivity |].
  rewrite (@effect_keeps_the_registry_when_nothing_is_clickable
             MoreExamples.renderAsName MoreExamples.encodeAsIs
             false false MoreExamples.staticSVG
             {| clickHandlers := MoreExamples.someRegistry;
                content := EmptyString |}
             eq_refl eq_refl).
  reflexivity.
Defined.

(* ===================================================================== *)
(** * Further properties of the hit tests *)
(* ===================================================================== *)

(** A rounded result has the sign it was given, or is NaN. *)
Lemma binary_round_aux_sign sx mx ex lx :
  match binary_round_aux JS.prec JS.emax sx mx ex lx with
  | S754_zero s | S754_infinity s | S754_finite s _ _ => s = sx
  | S754_nan => True
  end.
Proof.
  unfold binary_round_aux.
  destruct (shr_fexp JS.prec JS.emax mx ex lx) as [mrs' e'].
  destruct (shr_fexp JS.prec JS.emax
              (round_nearest_even (shr_m mrs') (loc_of_shr_record mrs'))
              e' loc_Exact) as [mrs'' e''].
  destruct (shr_m mrs''); [reflexivity | | exact I].
  destruct (Z.leb e'' (JS.emax - JS.prec)); reflexivity.
Qed.

Lemma sqrt_notNegative a : notNegative (JS.Math.sqrt a) = true.
Proof.
  destruct a as [s | [|] | | [|] m e]; try reflexivity.
  unfold JS.Math.sqrt, SFsqrt.
  destruct (SFsqrt_core_binary JS.prec JS.emax (Z.pos m) e) as [[mz ez] lz].
  pose proof (binary_round_aux_sign false mz ez lz) as Hsign.
  destruct (binary_round_aux JS.prec JS.emax false mz ez lz);
    cbn [notNegative]; try reflexivity; now rewrite Hsign.
Qed.

Lemma abs_notNegative a : notNegative (JS.Math.abs a) = true.
Proof. destruct a; reflexivity. Qed.

Lemma pow2_notNegative a : notNegative (JS.Math.pow2 a) = true.
Proof.
  destruct a as [s | s | | s m e]; try reflexivity.
  - destruct s; reflexivity.
  - unfold JS.Math.pow2, JS.mul, SFmul.
    pose proof (binary_round_aux_sign (xorb s s) (Z.pos (m * m)) (e + e)
                                      loc_Exact) as Hsign.
    destruct (binary_round_aux JS.prec JS.emax (xorb s s)
                               (Z.pos (m * m)) (e + e) loc_Exact);
      cbn [notNegative]; try reflexivity; rewrite Hsign; now destruct s.
Qed.

(** Only a number above zero is above a number that is not negative. *)
Lemma above_notNegative a r :
  notNegative a = true -> JS.lt a r = true -> JS.gt r (JS.of_Z 0) = true.
Proof.
  destruct a as [sa | sa | | sa ma ea]; cbn [notNegative];
    try discriminate;
    destruct r as [sr | sr | | sr mr er]; cbn; try discriminate;
    try (destruct sr; try discriminate; reflexivity);
    intros Hsa; apply negb_true_iff in Hsa; subst sa;
    destruct sr; try discriminate; reflexivity.
Qed.

(** X13.  A circle whose radius is not above zero (zero, negative, NaN or
    missing) contains no point. *)
Theorem circle_without_positive_radius_contains_nothing
        (circle : jsx) (x y : JS.number) :
  JS.gt (JS.toNumber (Props.radius (propsOf circle))) (JS.of_Z 0) = false ->
  Circle.doesContainPoint circle x y = false.
Proof.
  intros Hradius.
  destruct (Circle.doesContainPoint circle x y) eqn:Hhit; [| reflexivity].
  unfold Circle.doesContainPoint in Hhit.
  apply above_notNegative in Hhit; [| apply sqrt_notNegative].
  rewrite Hhit in Hradius. discriminate.
Qed.

Lemma circle_without_positive_radius_contains_nothing_witness :
  Circle.doesContainPoint (Examples.Circle 100 100 0 (Examples.returning 1))
                          (JS.of_Z 115) (JS.of_Z 115) = false.
Proof.
  exact (@circle_without_positive_radius_contains_nothing
           (Examples.Circle 100 100 0 (Examples.returning 1))
           (JS.of_Z 115) (JS.of_Z 115) eq_refl).
Defined.

(** X14.  A segment whose stroke width, as its properties hold it, is
    not above zero (zero, negative or NaN) contains no point.
    [Line.defaultProps] gives the stroke width 1 to a segment that
    declares none, so that such a segment has a stroke width above
    zero. *)
Theorem line_without_positive_stroke_contains_nothing
        (line : jsx) (x y : JS.number) :
  JS.gt (JS.toNumber (Props.strokeWidth (propsOf line))) (JS.of_Z 0) = false ->
  Line.doesContainPoint line x y = false.
Proof.
  intros Hstroke.
  destruct (Line.doesContainPoint line x y) eqn:Hhit; [| reflexivity].
  unfold Line.doesContainPoint, Line.line_eq in Hhit.
  apply above_notNegative in Hhit; [| apply abs_notNegative].
  rewrite Hhit in Hstroke. discriminate.
Qed.

Lemma line_without_positive_stroke_contains_nothing_witness :
  Line.doesContainPoint (Examples.Line 0 0 100 100 0 (Examples.returning 1))
                        (JS.of_Z 65) (JS.of_Z 65) = false.
Proof.
  exact (@line_without_positive_stroke_contains_nothing
           (Examples.Line 0 0 100 100 0 (Examples.returning 1))
           (JS.of_Z 65) (JS.of_Z 65) eq_refl).
Defined.

Lemma falsy_value v :
  JS.truthyValue v = false ->
  JS.toNumber v = JS.NaN \/ exists s, JS.toNumber v = S754_zero s.
Proof.
  destruct v as [[s | s | | s m e] |]; cbn; try discriminate; eauto.
Qed.

Lemma div_by_falsy a d :
  d = JS.NaN \/ (exists s, d = S754_zero s) ->
  JS.Math.pow2 (JS.div a d) = JS.NaN
  \/ JS.Math.pow2 (JS.div a d) = S754_infinity false.
Proof.
  intros [-> | [s ->]].
  - left. now rewrite JSFacts.div_NaN_r.
  - destruct a as [sa | sa | | sa ma ea]; cbn; auto;
      right; now destruct (xorb sa s).
Qed.

Lemma add_infinite_notNegative a b :
  a = JS.NaN \/ a = S754_infinity false ->
  notNegative b = true ->
  JS.lt (JS.add a b) (JS.of_Z 1) = false
  /\ JS.lt (JS.add b a) (JS.of_Z 1) = false.
Proof.
  intros [-> | ->] Hb.
  - now rewrite JSFacts.add_NaN_l, JSFacts.add_NaN_r.
  - destruct b as [sb | sb | | sb mb eb]; cbn in Hb |- *;
      try (split; reflexivity);
      apply negb_true_iff in Hb; subst sb; split; reflexivity.
Qed.

(** X15.  An ellipse one of whose radii is zero, NaN or missing contains
    no point. *)
Theorem ellipse_without_radius_contains_nothing
        (ellipse : jsx) (x y : JS.number) :
  JS.truthyValue (Props.rx (propsOf ellipse)) = false
  \/ JS.truthyValue (Props.ry (propsOf ellipse)) = false ->
  Ellipse.doesContainPoint ellipse x y = false.
Proof.
  intros [Hrx | Hry]; unfold Ellipse.doesContainPoint.
  - refine (proj1 (@add_infinite_notNegative _ _ _ _)).
    + apply div_by_falsy, falsy_value, Hrx.
    + apply pow2_notNegative.
  - refine (proj2 (@add_infinite_notNegative _ _ _ _)).
    + apply div_by_falsy, falsy_value, Hry.
    + apply pow2_notNegative.
Qed.

Lemma ellipse_without_radius_contains_nothing_witness :
  Ellipse.doesContainPoint
    (MoreExamples.Ellipse 100 100 0 50 (Examples.returning 1))
    (JS.of_Z 115) (JS.of_Z 115) = false.
Proof.
  exact (@ellipse_without_radius_contains_nothing
           (MoreExamples.Ellipse 100 100 0 50 (Examples.returning 1))
           (JS.of_Z 115) (JS.of_Z 115) (or_introl eq_refl)).
Defined.

Lemma counted_NaN_box b ray e :
  Polygon.minX b = JS.NaN \/ Polygon.minY b = JS.NaN ->
  Polygon.counted b ray e = false.
Proof.
  intros Hbox. unfold Polygon.counted.
  destruct (JS.isFinite (Polygon.x0 ray e) && _ && _ && _); [| reflexivity].
  destruct Hbox as [-> | ->]; autorewrite with nan; reflexivity.
Qed.

Lemma min_NaN l : existsb JS.isNaN l = true -> JS.Math.min l = JS.NaN.
Proof. intros Hnan. unfold JS.Math.min. now rewrite Hnan. Qed.

Lemma existsb_map (A B : Type) (f : B -> bool) (g : A -> B) (l : list A) :
  existsb f (map g l) = existsb (fun a => f (g a)) l.
Proof.
  induction l as [| a l IH]; cbn [map existsb]; [reflexivity | now rewrite IH].
Qed.

(** X16.  A polygon one of whose coordinates is not read as a number (a
    word in [points], a pair without its comma, an empty [points])
    contains no point. *)
Theorem polygon_with_unreadable_point_contains_nothing
        (polygon : jsx) (x y : JS.number) :
  existsb (fun point => JS.isNaN (Point.x point) || JS.isNaN (Point.y point))
          (Polygon.parsePoints (Props.points (propsOf polygon))) = true ->
  Polygon.doesContainPoint polygon x y = false.
Proof.
  intros Hnan. unfold Polygon.doesContainPoint, Polygon.doesContainPointOf.
  destruct (Polygon.outsideBox _ x y); [reflexivity |].
  unfold Polygon.rayCasting.
  rewrite countIntersections_none; [reflexivity |].
  intros e. apply counted_NaN_box. unfold Polygon.boundingBox.
  cbn [Polygon.minX Polygon.minY].
  apply existsb_exists in Hnan as [point [Hin Hpoint]].
  apply orb_true_iff in Hpoint as [Hx | Hy]; [left | right];
    apply min_NaN; rewrite existsb_map; apply existsb_exists;
    exists point; now split.
Qed.

Lemma polygon_with_unreadable_point_contains_nothing_witness :
  Polygon.doesContainPoint
    (Examples.Polygon "0,0 100,0 100 0,100" (Examples.returning 1))
    (JS.of_Z 50) (JS.of_Z 50) = false.
Proof.
  exact (@polygon_with_unreadable_point_contains_nothing
           (Examples.Polygon "0,0 100,0 100 0,100" (Examples.returning 1))
           (JS.of_Z 50) (JS.of_Z 50) eq_refl).
Defined.

Lemma sub_equal_numbers a b :
  JS.eqb a b = true ->
  JS.sub a b = JS.NaN \/ exists s, JS.sub a b = S754_zero s.
Proof.
  intros Heq.
  destruct (JSFacts.eqb_cases _ _ Heq) as [-> | [s [s' [-> ->]]]].
  - destruct (JSFacts.sub_diag b) as [-> | ->]; eauto.
  - right. destruct s, s'; eexists; reflexivity.
Qed.

Lemma div_by_zero_or_NaN a d :
  d = JS.NaN \/ (exists s, d = S754_zero s) -> JS.nonFinite (JS.div a d).
Proof.
  intros [-> | [s ->]].
  - now rewrite JSFacts.div_NaN_r.
  - destruct a; reflexivity.
Qed.

Lemma sub_nonFinite_l a b : JS.nonFinite a -> JS.nonFinite (JS.sub a b).
Proof.
  destruct a as [| sa | |]; try discriminate; intros _.
  - destruct b as [| sb | |]; try reflexivity. destruct sa, sb; reflexivity.
  - reflexivity.
Qed.

Lemma div_of_nonFinite a b :
  JS.nonFinite a -> JS.nonFinite b -> JS.div a b = JS.NaN.
Proof.
  destruct a as [| sa | |]; try discriminate;
    destruct b as [| sb | |]; try discriminate; reflexivity.
Qed.

Lemma counted_nonFinite_slope b ray e :
  JS.nonFinite (Polygon.slope ray) -> Polygon.counted b ray e = false.
Proof.
  intros Hslope. unfold Polygon.counted.
  assert (Hx0 : Polygon.x0 ray e = JS.NaN).
  { unfold Polygon.x0. apply div_of_nonFinite.
    - apply JSFacts.sub_nonFinite_r. unfold Polygon.intercept.
      apply JSFacts.sub_nonFinite_r, JSFacts.mul_nonFinite_l, Hslope.
    - apply sub_nonFinite_l, Hslope. }
  rewrite Hx0. reflexivity.
Qed.

(** X17.  A query point that has the x of the first vertex of a polygon
    (once shifted by 15) is never inside it: the ray to that point is
    vertical, its slope is not finite, and no edge is counted. *)
Theorem polygon_never_contains_a_point_below_its_first_vertex
        (polygon : jsx) (x y : JS.number) :
  JS.eqb x (Point.x (Polygon.pointAt
                       (Polygon.parsePoints (Props.points (propsOf polygon)))
                       0)) = true ->
  Polygon.doesContainPoint polygon x y = false.
Proof.
  intros Hx. unfold Polygon.doesContainPoint, Polygon.doesContainPointOf.
  destruct (Polygon.outsideBox _ x y); [reflexivity |].
  unfold Polygon.rayCasting.
  rewrite countIntersections_none; [reflexivity |].
  intros e. apply counted_nonFinite_slope.
  unfold Polygon.slope, Polygon.rayOf.
  cbn [Polygon.x1 Polygon.x2 Polygon.y1 Polygon.y2].
  apply div_by_zero_or_NaN, sub_equal_numbers, Hx.
Qed.

Lemma polygon_never_contains_a_point_below_its_first_vertex_witness :
  Polygon.doesContainPoint
    (Examples.Polygon "50,0 100,100 0,100" (Examples.returning 1))
    (JS.of_Z 65) (JS.of_Z 80) = false.
Proof.
  exact (@polygon_never_contains_a_point_below_its_first_vertex
           (Examples.Polygon "50,0 100,100 0,100" (Examples.returning 1))
           (JS.of_Z 65) (JS.of_Z 80) eq_refl).
Defined.

Lemma sub_diag_finite d :
  JS.isFinite d = true -> JS.sub d d = S754_zero false.
Proof.
  destruct d as [s | s | | s m e]; try discriminate; intros _.
  - destruct s; reflexivity.
  - unfold JS.sub, SFsub. rewrite Z.sub_diag. reflexivity.
Qed.



(* ===================================================================== *)
(** * Further properties of the traversal and of the text dimensions *)
(* ===================================================================== *)

(** X19.  On a tree whose arrays hold neither [null], [undefined] nor
    arrays, [getChildrenRecursive] returns the node it is given first,
    then nodes of its tree only; it leaves out nothing but an only child
    that is falsy (an empty string, a zero, NaN, [false], [null],
    [undefined]), and the nodes that carry a callback come in the order of
    the depth-first traversal, siblings in order.  An array found as an
    item of an array of children is returned as one item and is not
    entered, whatever it holds; and a [null] or an [undefined] that is an
    item of the array of children makes the traversal raise. *)
Theorem getChildrenRecursive_is_the_traversal :
  (forall node : jsx,
      isNullish node = false ->
      isArray node = false ->
      hasPlainArrays node = true ->
      exists rest,
        getChildrenRecursive node = ret (node :: rest)
        /\ (forall n, In n (node :: rest) -> In n (depthFirst node))
        /\ (forall n, In n (depthFirst node) ->
                      In n (node :: rest) \/ truthyChildren n = false)
        /\ filter isInteractive (node :: rest)
           = filter isInteractive (depthFirst node))
  /\ (forall (t : elementType) (p : Props.t) (inner : list jsx),
         getChildrenRecursive (Element t p (ArrayOf [ArrayOf inner]))
         = ret [Element t p (ArrayOf [ArrayOf inner]); ArrayOf inner])
  /\ (forall (t : elementType) (p : Props.t) (items : list jsx) (item : jsx),
         In item items ->
         isNullish item = true ->
         exists message,
           getChildrenRecursive (Element t p (ArrayOf items))
           = throw message).
Proof.
  split; [| split].
  - intros node Hnull Harray Hplain.
    destruct (plain_visited node Hnull Harray Hplain)
      as [Hprops [Hincl [Hall Hfilter]]].
    assert (Hhead : exists rest, visited node = node :: rest).
    { destruct node as [t p children | s | n text | b | | | items];
        try (eexists; reflexivity).
      rewrite visited_element.
      destruct (truthyChildren children); eexists; reflexivity. }
    destruct Hhead as [rest Hrest]. exists rest.
    rewrite <- Hrest.
    split; [now apply getChildrenRecursive_returns |].
    split; [exact Hincl |]. split; [exact Hall | exact Hfilter].
  - reflexivity.
  - intros t p items item Hin Hnull.
    apply getChildrenRecursive_raises. rewrite visited_element.
    cbn [truthyChildren toArray forallb isNullish negb andb].
    destruct (forallb (fun n => negb (isNullish n)) (flat_map visited items))
             eqn:Hall; [| reflexivity].
    rewrite forallb_forall in Hall.
    assert (Hmet : In item (flat_map visited items)).
    { apply in_flat_map. exists item. split; [exact Hin |].
      destruct item; try discriminate Hnull; left; reflexivity. }
    specialize (Hall item Hmet). rewrite Hnull in Hall. discriminate Hall.
Qed.

Lemma getChildrenRecursive_is_the_traversal_witness :
  hasPlainArrays MoreExamples.staticSVG = true
  /\ (exists rest,
         getChildrenRecursive MoreExamples.staticSVG
         = ret (MoreExamples.staticSVG :: rest)
         /\ List.length rest = 3%nat)
  /\ In NullLeaf [Examples.Rect 0 0 10 10 None; NullLeaf]
  /\ exists message,
      getChildrenRecursive
        (Examples.G [Examples.Rect 0 0 10 10 None; NullLeaf])
      = throw message.
Proof.
  destruct getChildrenRecursive_is_the_traversal as [Hplain [_ Hnull]].
  split; [reflexivity |]. split.
  - destruct (Hplain MoreExamples.staticSVG eq_refl eq_refl eq_refl)
      as [rest [Hrest _]].
    exists rest. split; [exact Hrest |].
    assert (Hsame : ret (MoreExamples.staticSVG :: rest)
                    = getChildrenRecursive MoreExamples.staticSVG)
      by (symmetry; exact Hrest).
    vm_compute in Hsame. injection Hsame as ->. reflexivity.
  - split; [right; left; reflexivity |].
    exact (Hnull (OtherType "G")
                 (Examples.boxProps None None None None None)
                 [Examples.Rect 0 0 10 10 None; NullLeaf] NullLeaf
                 (or_intror (or_introl eq_refl)) eq_refl).
Defined.

(** X20.  [Text.computeDimensions] raises exactly when the children of
    the text are [undefined] or [null] and its width or its height is
    falsy; it then reads [toString] of [undefined] or of [null].  With
    two truthy dimensions it does not read the children at all. *)
Theorem computeDimensions_raises_exactly_without_children (text : jsx) :
  (exists message, Text.computeDimensions text = throw message)
  <-> (isNullish (childrenProp text) = true
       /\ JS.truthyValue (Props.width (propsOf text))
          && JS.truthyValue (Props.height (propsOf text)) = false).
Proof.
  split.
  - intros [message Hthrow].
    destruct (JS.truthyValue (Props.width (propsOf text))
              && JS.truthyValue (Props.height (propsOf text))) eqn:Hfalsy.
    + destruct (@computeDimensions_returns text) as [dims Hdims];
        [now rewrite Hfalsy |].
      rewrite Hdims in Hthrow. discriminate Hthrow.
    + split; [| reflexivity].
      destruct (isNullish (childrenProp text)) eqn:Hnone; [reflexivity |].
      destruct (@computeDimensions_returns text) as [dims Hdims];
        [rewrite Hnone; apply orb_true_r |].
      rewrite Hdims in Hthrow. discriminate Hthrow.
  - intros [Hnone Hfalsy]. now apply computeDimensions_raises.
Qed.

(* ===================================================================== *)
(** * Properties of [useToggleDelegates] *)
(* ===================================================================== *)

Lemma get_spread states index :
  ToggleDelegates.get (ToggleDelegates.spread states) index
  = ToggleDelegates.get states index.
Proof.
  unfold ToggleDelegates.get, ToggleDelegates.spread.
  revert index. induction states as [| e states IH]; intros [| index];
    cbn [map nth]; try reflexivity.
  - destruct e; reflexivity.
  - apply IH.
Qed.

Lemma get_set states index v j :
  v <> ToggleDelegates.Hole ->
  ToggleDelegates.get (ToggleDelegates.set states index v) j
  = if Nat.eqb index j then v else ToggleDelegates.get states j.
Proof.
  intros Hv. unfold ToggleDelegates.get.
  revert states j. induction index as [| index IH]; intros [| e states] [| j];
    cbn [ToggleDelegates.set nth Nat.eqb]; try reflexivity;
    try (destruct v; [reflexivity | reflexivity | contradiction]).
  - now destruct j.
  - rewrite (IH [] j). destruct (Nat.eqb index j); [reflexivity |].
    now destruct j.
  - apply IH.
Qed.

(** X21.  Reading after [toggle] or [setEnabled]: the array given to
    [setStates] holds at the index written the negation of what was there
    (true where nothing was), or the value given, and at every other index
    what the array held before.  This holds at every index, within the
    array or beyond its end. *)
Theorem toggle_and_setEnabled_write_one_index
        (states : ToggleDelegates.array) (index j : nat) (enabled : bool) :
  ToggleDelegates.get (ToggleDelegates.toggle states index) j
  = (if Nat.eqb index j
     then ToggleDelegates.Bool
            (ToggleDelegates.not (ToggleDelegates.get states index))
     else ToggleDelegates.get states j)
  /\ ToggleDelegates.get (ToggleDelegates.setEnabled states index enabled) j
     = (if Nat.eqb index j then ToggleDelegates.Bool enabled
        else ToggleDelegates.get states j).
Proof.
  unfold ToggleDelegates.toggle, ToggleDelegates.setEnabled.
  rewrite !get_set by discriminate. rewrite !get_spread. split; reflexivity.
Qed.

Lemma toggle_booleans bs index :
  (index < List.length bs)%nat ->
  ToggleDelegates.toggle (ToggleDelegates.ofBooleans bs) index
  = ToggleDelegates.ofBooleans (ToggleDelegates.flipAt bs index).
Proof.
  unfold ToggleDelegates.toggle, ToggleDelegates.ofBooleans,
    ToggleDelegates.flipAt, ToggleDelegates.spread, ToggleDelegates.get.
  rewrite map_map. cbn beta iota.
  revert index. induction bs as [| b bs IH]; intros [| index] Hlt;
    cbn [List.length] in Hlt; try lia.
  - reflexivity.
  - cbn [map ToggleDelegates.set nth firstn skipn app].
    f_equal. apply IH. lia.
Qed.

Lemma flipAt_length bs index :
  (index < List.length bs)%nat ->
  List.length (ToggleDelegates.flipAt bs index) = List.length bs.
Proof.
  revert index. induction bs as [| b bs IH]; intros [| index] Hlt;
    cbn [List.length] in Hlt; try lia; unfold ToggleDelegates.flipAt;
    cbn [firstn skipn nth app List.length]; [reflexivity |].
  f_equal. apply IH. lia.
Qed.

Lemma flipAt_twice bs index :
  (index < List.length bs)%nat ->
  ToggleDelegates.flipAt (ToggleDelegates.flipAt bs index) index = bs.
Proof.
  revert index. induction bs as [| b bs IH]; intros [| index] Hlt;
    cbn [List.length] in Hlt; try lia; unfold ToggleDelegates.flipAt;
    cbn [firstn skipn nth app].
  - now rewrite negb_involutive.
  - f_equal. apply IH. lia.
Qed.

Lemma delegateIndices_booleans bs :
  ToggleDelegates.delegateIndices (ToggleDelegates.ofBooleans bs)
  = seq 0 (List.length bs).
Proof.
  unfold ToggleDelegates.delegateIndices, ToggleDelegates.ofBooleans.
  rewrite length_map. apply forallb_filter_id.
  apply forallb_forall. intros i Hin. apply in_seq in Hin.
  replace (nth i (map ToggleDelegates.Bool bs) ToggleDelegates.Hole)
    with (ToggleDelegates.Bool (nth i bs false)); [reflexivity |].
  rewrite nth_indep with (d' := ToggleDelegates.Bool false)
    by (rewrite length_map; lia).
  now rewrite map_nth.
Qed.

(** X22.  On an array of booleans, as the initial states are, there is one
    delegate for each index of the array and no other; the [toggle] of a
    delegate gives [setStates] an array of booleans of the same length, in
    which the boolean at its index is flipped and nothing else changes;
    and toggling the same index in the next render gives the first array
    back. *)
Theorem toggle_flips_one_boolean (bs : list bool) (index : nat) :
  In index (ToggleDelegates.delegateIndices (ToggleDelegates.ofBooleans bs)) ->
  (index < List.length bs)%nat
  /\ ToggleDelegates.toggle (ToggleDelegates.ofBooleans bs) index
     = ToggleDelegates.ofBooleans (ToggleDelegates.flipAt bs index)
  /\ List.length (ToggleDelegates.flipAt bs index) = List.length bs
  /\ ToggleDelegates.toggle
       (ToggleDelegates.toggle (ToggleDelegates.ofBooleans bs) index) index
     = ToggleDelegates.ofBooleans bs.
Proof.
  rewrite delegateIndices_booleans. intros Hin. apply in_seq in Hin.
  assert (Hlt : (index < List.length bs)%nat) by lia.
  split; [exact Hlt |]. split; [now apply toggle_booleans |].
  split; [now apply flipAt_length |].
  rewrite toggle_booleans by exact Hlt.
  rewrite toggle_booleans by (now rewrite flipAt_length).
  now rewrite flipAt_twice.
Qed.

Lemma toggle_flips_one_boolean_witness :
  In 1%nat (ToggleDelegates.delegateIndices
              (ToggleDelegates.ofBooleans [false; false; true]))
  /\ ToggleDelegates.toggle (ToggleDelegates.ofBooleans [false; false; true]) 1
     = ToggleDelegates.ofBooleans [false; true; true].
Proof.
  assert (Hin : In 1%nat (ToggleDelegates.delegateIndices
                            (ToggleDelegates.ofBooleans [false; false; true]))).
  { cbn. tauto. }
  split; [exact Hin |].
  exact (proj1 (proj2 (@toggle_flips_one_boolean [false; false; true] 1 Hin))).
Defined.

(* ===================================================================== *)
(** * Properties of the arguments of [execScript] *)
(* ===================================================================== *)

Lemma replaceAll_count c by_ s :
  countChar c by_ = 0%nat ->
  countChar c (ExecScript.replaceAll c by_ s) = 0%nat.
Proof.
  intros Hby. induction s as [| c' r IH]; cbn [ExecScript.replaceAll];
    [reflexivity |].
  destruct (Ascii.eqb c' c) eqn:Hc.
  - now rewrite countChar_app, Hby, IH.
  - cbn [countChar]. now rewrite Hc, IH.
Qed.

Lemma replaceAll_absent c by_ s :
  countChar c s = 0%nat -> ExecScript.replaceAll c by_ s = s.
Proof.
  induction s as [| c' r IH]; cbn [ExecScript.replaceAll countChar];
    [reflexivity |].
  destruct (Ascii.eqb c' c); [discriminate |].
  intros Hnone. now rewrite (IH Hnone).
Qed.

(** X23.  The script given to [osascript] never holds a line end, whatever
    the script: every line end is replaced by a backslash and an "n". *)
Theorem script_argument_holds_no_line_end (script : string) :
  countChar ExecScript.newline (ExecScript.escapeScript script) = 0%nat.
Proof.
  unfold ExecScript.escapeScript. apply replaceAll_count. reflexivity.
Qed.

(** X24.  A script given by a path, that is a text that starts with "/" and
    holds no double quote and no line end, reaches [osascript] unchanged
    and as the first argument: the arguments are the path, "-l", the
    language, and then the arguments of the script in their order. *)
Theorem script_path_is_passed_unchanged
        (script language : string) (args : list string) :
  ExecScript.startsWithSlash script = true ->
  countChar ExecScript.quote script = 0%nat ->
  countChar ExecScript.newline script = 0%nat ->
  ExecScript.argv script args language
  = script :: "-l"%string :: language :: args.
Proof.
  intros Hslash Hquote Hnewline. unfold ExecScript.argv, ExecScript.escapeScript.
  rewrite Hslash. rewrite (replaceAll_absent _ _ _ Hquote).
  now rewrite (replaceAll_absent _ _ _ Hnewline).
Qed.

Lemma script_path_is_passed_unchanged_witness :
  ExecScript.argv "/assets/clickable-detail/DetectMouseInput.scpt" []
                  "JavaScript"
  = ["/assets/clickable-detail/DetectMouseInput.scpt"%string;
     "-l"%string; "JavaScript"%string].
Proof.
  exact (@script_path_is_passed_unchanged
           "/assets/clickable-detail/DetectMouseInput.scpt" "JavaScript" []
           eq_refl eq_refl eq_refl).
Defined.

(* ===================================================================== *)
(** * The centre of a circle *)
(* ===================================================================== *)

(** X25.  The centre of a circle, shifted by 15 on both axes, is inside
    the circle exactly when the radius is above zero (the coordinates of
    the shifted centre being finite). *)
Theorem circle_contains_its_centre_when_radius_is_positive (circle : jsx) :
  let p := propsOf circle in
  let x := JS.add (JS.toNumber (Props.cx p)) fifteen in
  let y := JS.add (JS.toNumber (Props.cy p)) fifteen in
  JS.isFinite x = true ->
  JS.isFinite y = true ->
  Circle.doesContainPoint circle x y
  = JS.gt (JS.toNumber (Props.radius p)) (JS.of_Z 0).
Proof.
  intros p x y Hx Hy. unfold Circle.doesContainPoint. fold p. fold x. fold y.
  rewrite (sub_diag_finite x Hx), (sub_diag_finite y Hy). reflexivity.
Qed.

Lemma circle_contains_its_centre_when_radius_is_positive_witness :
  Circle.doesContainPoint (Examples.Circle 100 100 50 (Examples.returning 1))
                          (JS.of_Z 115) (JS.of_Z 115) = true.
Proof.
  exact (@circle_contains_its_centre_when_radius_is_positive
           (Examples.Circle 100 100 50 (Examples.returning 1))
           eq_refl eq_refl).
Defined.
